(** * The SQS image worker ([sqs_message_receiver.py]) in Rocq

    A shallow embedding of the worker's per-message handler together with
    the pieces of the Python runtime it leans on ([int], truthiness,
    [json.loads], [os.path.splitext], [os.path.join]).  Collaborators that
    live outside the source file (the SQS client, [requests], the file
    system, PIL) are functions of a [World] record; every call to one of
    them is written to a trace, and exceptions are values.

    Conventions.
    - A Python [str] is a [string] holding its UTF-8 bytes; every character
      the code inspects (['/'], ['.'], JSON punctuation, digits) is ASCII, so
      searching and slicing agree with Python on well-formed text.
    - [os.path] is [posixpath].
    - [int] has its default limit of 4300 digits. The recursion limit of
      the interpreter and non-ASCII digits or white space in [int] are
      outside the model. *)

From Stdlib Require Import Decimal DecimalNat.
From Stdlib Require Import ZArith String Ascii List Lia DecimalString.
From Stdlib.Strings Require Import Byte.
From stdpp Require Import base gmap strings list.

#[local] Set Warnings "-register-all".

Open Scope string_scope.
Open Scope list_scope.
Open Scope Z_scope.

(* ================================================================== *)
(** ** Python values and exceptions *)
(* ================================================================== *)

Module Py.

(** A float read from JSON text: the decimal [(-1)^neg * mantissa * 10^exp10]
    that [float] rounds, or one of the three constants the decoder accepts. *)
Inductive Float :=
| FNaN
| FInf (neg : bool)
| FDec (neg : bool) (mantissa : N) (exp10 : Z).

(** The values [json.loads] can return. Dictionary keys are always [str];
    a dictionary keeps insertion order, as Python's does. *)
Inductive Value :=
| VNone
| VBool (b : bool)
| VInt (z : Z)
| VFloat (f : Float)
| VStr (s : string)
| VList (l : list Value)
| VDict (d : list (string * Value)).

(** Where an exception sits in the class hierarchy, as far as the
    [except] clauses of the worker can tell. *)
Inductive ExnKind :=
| IsValueError      (* ValueError and its subclasses (JSONDecodeError, ...) *)
| IsException       (* any other subclass of Exception *)
| IsBaseException.  (* KeyboardInterrupt, SystemExit, ... *)

Record Exn := mkExn {
  exn_kind : ExnKind;
  exn_class : string;
  exn_args : string
}.

Inductive Outcome (A : Type) :=
| Returned (a : A)
| Raised (e : Exn).
Arguments Returned {A} a.
Arguments Raised {A} e.

Definition isinstance_ValueError (e : Exn) : bool :=
  match exn_kind e with IsValueError => true | _ => false end.

Definition isinstance_Exception (e : Exn) : bool :=
  match exn_kind e with IsBaseException => false | _ => true end.

Definition ValueError (args : string) : Exn := mkExn IsValueError "ValueError" args.
Definition JSONDecodeError (args : string) : Exn := mkExn IsValueError "JSONDecodeError" args.
Definition KeyError (key : string) : Exn := mkExn IsException "KeyError" key.
Definition TypeError (args : string) : Exn := mkExn IsException "TypeError" args.
Definition AttributeError (args : string) : Exn := mkExn IsException "AttributeError" args.
Definition RecursionError (args : string) : Exn := mkExn IsException "RecursionError" args.

(** *** Truthiness ([bool(v)], as used by [not v] and [if v]) *)

(** [float] rounds a decimal to zero when it is zero or at most half the
    smallest subnormal, [2^-1075] (a tie rounds to the even neighbour, 0).
    The third test settles far-away exponents without computing the power:
    [m < 2^size m] and [8^k <= 10^k]. *)
Definition float_is_zero (f : Float) : bool :=
  match f with
  | FNaN | FInf _ => false
  | FDec _ m e =>
      if (m =? 0)%N then true
      else if 0 <=? e then false
      else if Z.of_N (N.size m) + 1075 <=? 3 * (- e) then true
      else Z.of_N m * 2 ^ 1075 <=? 10 ^ (- e)
  end.

Definition truthy (v : Value) : bool :=
  match v with
  | VNone => false
  | VBool b => b
  | VInt z => negb (z =? 0)
  | VFloat f => negb (float_is_zero f)
  | VStr s => negb (String.eqb s "")
  | VList l => match l with [] => false | _ => true end
  | VDict d => match d with [] => false | _ => true end
  end.

(** *** [dict] operations *)

Fixpoint dict_lookup (d : list (string * Value)) (k : string) : option Value :=
  match d with
  | [] => None
  | (k', v) :: d' => if String.eqb k' k then Some v else dict_lookup d' k
  end.

(** [d[k] = v]: an existing key keeps its position, a new one goes last. *)
Fixpoint dict_set (d : list (string * Value)) (k : string) (v : Value)
  : list (string * Value) :=
  match d with
  | [] => [(k, v)]
  | (k', v') :: d' =>
      if String.eqb k' k then (k', v) :: d' else (k', v') :: dict_set d' k v
  end.

(** [d.get(k)] on a [dict]: [None] for a missing key. *)
Definition dict_get (d : list (string * Value)) (k : string) : Value :=
  match dict_lookup d k with Some v => v | None => VNone end.

(** [obj.get(k)]: only a [dict] has the method. *)
Definition get (obj : Value) (k : string) : Outcome Value :=
  match obj with
  | VDict d => Returned (dict_get d k)
  | _ => Raised (AttributeError "object has no attribute 'get'")
  end.

(** *** [int(s)] for a [str], base 10 *)

Definition is_space (c : ascii) : bool :=
  let n := N_of_ascii c in
  ((9 <=? n) && (n <=? 13) || (n =? 32))%N.

Definition is_digit (c : ascii) : bool :=
  let n := N_of_ascii c in ((48 <=? n) && (n <=? 57))%N.

Definition digit_val (c : ascii) : Z := Z.of_N (N_of_ascii c) - 48.

Fixpoint lstrip (s : string) : string :=
  match s with
  | String c s' => if is_space c then lstrip s' else s
  | EmptyString => s
  end.

(** [rstrip s] drops trailing white space. *)
Fixpoint rstrip (s : string) : string :=
  match s with
  | EmptyString => EmptyString
  | String c s' =>
      match rstrip s' with
      | EmptyString => if is_space c then EmptyString else String c EmptyString
      | r => String c r
      end
  end.

(** Digits with single underscores between them: [after_digit] tells
    whether the previous character was a digit. *)
Fixpoint int_digits (s : string) (acc : Z) (after_digit : bool) : option Z :=
  match s with
  | EmptyString => if after_digit then Some acc else None
  | String c s' =>
      if is_digit c then int_digits s' (10 * acc + digit_val c) true
      else if Ascii.eqb c "_" then
        (if after_digit then int_digits s' acc false else None)
      else None
  end.

(** [sys.get_int_max_str_digits()], at its default. *)
Definition max_str_digits : N := 4300.

Definition exceeds_digit_limit : Exn :=
  ValueError "Exceeds the limit (4300 digits) for integer string conversion".

Fixpoint count_digits (s : string) : N :=
  match s with
  | EmptyString => 0%N
  | String c s' => ((if is_digit c then 1 else 0) + count_digits s')%N
  end.

Definition int (s : string) : Outcome Z :=
  let body := rstrip (lstrip s) in
  let '(neg, digits) :=
    match body with
    | String "-" r => (true, r)
    | String "+" r => (false, r)
    | _ => (false, body)
    end in
  match int_digits digits 0 false with
  | Some n =>
      if (max_str_digits <? count_digits digits)%N then Raised exceeds_digit_limit
      else Returned (if neg then - n else n)
  | None => Raised (ValueError "invalid literal for int() with base 10")
  end.

End Py.

(* ================================================================== *)
(** ** [json.loads] *)
(* ================================================================== *)

(** The decoder of the standard library with its default settings
    (strict strings, [NaN]/[Infinity] accepted, last duplicate key wins),
    following the scanner's control flow: [scan_once], the array and object
    loops, [scanstring] and the number matcher. Every syntax error is a
    [JSONDecodeError], a subclass of [ValueError]; an array or object that
    opens deeper than the recursion limit allows is a [RecursionError]. *)
Module Json.
Import Py.

(** The double quote, by its code. *)
Definition dquote : ascii := ascii_of_N 34.

Definition is_ws (c : ascii) : bool :=
  let n := N_of_ascii c in
  ((n =? 32) || (n =? 9) || (n =? 10) || (n =? 13))%N.

Fixpoint skip_ws (s : string) : string :=
  match s with
  | String c s' => if is_ws c then skip_ws s' else s
  | EmptyString => s
  end.

Fixpoint strip_prefix (p s : string) : option string :=
  match p, s with
  | EmptyString, _ => Some s
  | String a p', String b s' => if Ascii.eqb a b then strip_prefix p' s' else None
  | String _ _, EmptyString => None
  end.

(** [eat c s]: what follows [c] when [s] starts with it. *)
Definition eat (c : ascii) (s : string) : option string :=
  match s with
  | String c' r => if Ascii.eqb c' c then Some r else None
  | EmptyString => None
  end.

Definition byte_string (n : N) : string := String (ascii_of_N n) EmptyString.

(** UTF-8 bytes of a code point; a lone surrogate keeps its three-byte
    form, so distinct Python strings stay distinct. *)
Definition utf8_encode (cp : N) : string :=
  (if cp <? 128 then byte_string cp
   else if cp <? 2048 then
     byte_string (192 + cp / 64) +:+ byte_string (128 + cp mod 64)
   else if cp <? 65536 then
     byte_string (224 + cp / 4096) +:+ byte_string (128 + (cp / 64) mod 64)
     +:+ byte_string (128 + cp mod 64)
   else
     byte_string (240 + cp / 262144) +:+ byte_string (128 + (cp / 4096) mod 64)
     +:+ byte_string (128 + (cp / 64) mod 64) +:+ byte_string (128 + cp mod 64))%N.

Definition hex_val (c : ascii) : option N :=
  let n := N_of_ascii c in
  (if (48 <=? n) && (n <=? 57) then Some (n - 48)
   else if (65 <=? n) && (n <=? 70) then Some (n - 55)
   else if (97 <=? n) && (n <=? 102) then Some (n - 87)
   else None)%N.

Definition hex4 (s : string) : option (N * string) :=
  match s with
  | String a (String b (String c (String d rest))) =>
      match hex_val a, hex_val b, hex_val c, hex_val d with
      | Some x, Some y, Some z, Some t => Some ((((x * 16 + y) * 16 + z) * 16 + t)%N, rest)
      | _, _, _, _ => None
      end
  | _ => None
  end.

Definition is_high_surrogate (c : N) : bool := ((55296 <=? c) && (c <=? 56319))%N.
Definition is_low_surrogate (c : N) : bool := ((56320 <=? c) && (c <=? 57343))%N.

Definition simple_escape (c : ascii) : option ascii :=
  if Ascii.eqb c dquote then Some dquote
  else if Ascii.eqb c "\" then Some "\"%char
  else if Ascii.eqb c "/" then Some "/"%char
  else if Ascii.eqb c "b" then Some (ascii_of_N 8)
  else if Ascii.eqb c "f" then Some (ascii_of_N 12)
  else if Ascii.eqb c "n" then Some (ascii_of_N 10)
  else if Ascii.eqb c "r" then Some (ascii_of_N 13)
  else if Ascii.eqb c "t" then Some (ascii_of_N 9)
  else None.

(** The end of the fuel, which [loads] never reaches: it is no exception
    of Python's. *)
Definition out_of_fuel : Exn := mkExn IsBaseException "OutOfFuel" "".

(** [scanstring fuel s acc]: [s] starts just after the opening quote;
    returns the decoded text and what follows the closing quote. *)
Fixpoint scanstring (fuel : nat) (s : string) (acc : string)
  : Outcome (string * string) :=
  match fuel with
  | O => Raised out_of_fuel
  | S fuel' =>
      match s with
      | EmptyString => Raised (JSONDecodeError "Unterminated string starting at")
      | String c rest =>
          if Ascii.eqb c dquote then Returned (acc, rest)
          else if Ascii.eqb c "\" then
            match rest with
            | EmptyString => Raised (JSONDecodeError "Unterminated string starting at")
            | String e rest' =>
                if Ascii.eqb e "u" then
                  match hex4 rest' with
                  | None => Raised (JSONDecodeError "Invalid \uXXXX escape")
                  | Some (hi, after) =>
                      let lone := scanstring fuel' after (acc +:+ utf8_encode hi) in
                      if is_high_surrogate hi then
                        match strip_prefix "\u" after with
                        | Some low_digits =>
                            match hex4 low_digits with
                            | Some (lo, after') =>
                                if is_low_surrogate lo then
                                  scanstring fuel' after'
                                    (acc +:+ utf8_encode
                                       (65536 + (hi - 55296) * 1024 + (lo - 56320))%N)
                                else lone
                            | None => lone
                            end
                        | None => lone
                        end
                      else lone
                  end
                else
                  match simple_escape e with
                  | Some d => scanstring fuel' rest' (acc +:+ String d EmptyString)
                  | None => Raised (JSONDecodeError "Invalid \escape")
                  end
            end
          else if (N_of_ascii c <=? 31)%N then
            Raised (JSONDecodeError "Invalid control character at")
          else scanstring fuel' rest (acc +:+ String c EmptyString)
      end
  end.

Fixpoint span_digits (s : string) : string * string :=
  match s with
  | String c s' =>
      if is_digit c then
        let '(ds, r) := span_digits s' in (String c ds, r)
      else (EmptyString, s)
  | EmptyString => (EmptyString, EmptyString)
  end.

Fixpoint digits_value (ds : string) (acc : N) : N :=
  match ds with
  | String c ds' => digits_value ds' (10 * acc + (N_of_ascii c - 48))%N
  | EmptyString => acc
  end.

(** The number matcher, group by group. The integer part is a single 0
    or a digit 1-9 followed by digits. *)
Definition match_int (s : string) : option (string * string) :=
  match s with
  | String c r =>
      if Ascii.eqb c "0" then Some ("0", r)
      else if is_digit c then Some (span_digits s)
      else None
  | EmptyString => None
  end.

(** The fraction: a dot and at least one digit, or nothing. *)
Definition match_frac (s : string) : string * string :=
  match eat "." s with
  | Some r =>
      let '(f, r') := span_digits r in
      if String.eqb f "" then ("", s) else (f, r')
  | None => ("", s)
  end.

(** The exponent: e or E, an optional sign and at least one digit, or
    nothing. *)
Definition match_exp (s : string) : option Z * string :=
  match eat "e" s, eat "E" s with
  | None, None => (None, s)
  | Some r, _ | None, Some r =>
      let '(eneg, r1) :=
        match eat "-" r, eat "+" r with
        | Some x, _ => (true, x)
        | None, Some x => (false, x)
        | None, None => (false, r)
        end in
      let '(eds, r2) := span_digits r1 in
      if String.eqb eds "" then (None, s)
      else
        let e := Z.of_N (digits_value eds 0) in
        (Some (if eneg then - e else e), r2)
  end.

(** An optional minus sign, the integer part, then the optional fraction
    and exponent: either of them makes a float, otherwise an int, which
    [int] refuses when it has too many digits. *)
Definition match_number (s : string) : option (Outcome Value * string) :=
  let '(neg, s1) :=
    match eat "-" s with Some r => (true, r) | None => (false, s) end in
  match match_int s1 with
  | None => None
  | Some (ids, s2) =>
      let '(fds, s3) := match_frac s2 in
      let '(exp, s4) := match_exp s3 in
      match fds, exp with
      | EmptyString, None =>
          let n := Z.of_N (digits_value ids 0) in
          if (max_str_digits <? N.of_nat (String.length ids))%N then
            Some (Raised exceeds_digit_limit, s4)
          else Some (Returned (VInt (if neg then - n else n)), s4)
      | _, _ =>
          let e := match exp with Some e => e | None => 0 end in
          Some (Returned (VFloat (FDec neg (digits_value (ids +:+ fds) 0)
                                    (e - Z.of_nat (String.length fds)))), s4)
      end
  end.

Definition expecting_value : Exn := JSONDecodeError "Expecting value".

(** What the scanner raises when an array or an object opens deeper than
    the interpreter's recursion limit allows. *)
Definition array_too_deep : Exn :=
  RecursionError
    "maximum recursion depth exceeded while decoding a JSON array from a unicode string".

Definition object_too_deep : Exn :=
  RecursionError
    "maximum recursion depth exceeded while decoding a JSON object from a unicode string".

(** [depth] is the number of arrays and objects that may still be opened
    inside one another: the scanner enters a recursive call at every [{]
    and [[], before it looks at what follows. *)
Fixpoint scan_once (fuel depth : nat) (s : string) : Outcome (Value * string) :=
  match fuel with
  | O => Raised out_of_fuel
  | S fuel' =>
      match s with
      | EmptyString => Raised expecting_value
      | String c rest =>
          if Ascii.eqb c dquote then
            match scanstring (S (String.length rest)) rest "" with
            | Returned (str, r) => Returned (VStr str, r)
            | Raised e => Raised e
            end
          else if Ascii.eqb c "{" then
            match depth with
            | O => Raised object_too_deep
            | S depth' =>
                match eat "}" (skip_ws rest) with
                | Some r => Returned (VDict [], r)
                | None => parse_object fuel' depth' (skip_ws rest) []
                end
            end
          else if Ascii.eqb c "[" then
            match depth with
            | O => Raised array_too_deep
            | S depth' =>
                match eat "]" (skip_ws rest) with
                | Some r => Returned (VList [], r)
                | None => parse_array fuel' depth' (skip_ws rest) []
                end
            end
          else
            match strip_prefix "null" s, strip_prefix "true" s, strip_prefix "false" s with
            | Some r, _, _ => Returned (VNone, r)
            | _, Some r, _ => Returned (VBool true, r)
            | _, _, Some r => Returned (VBool false, r)
            | None, None, None =>
                match strip_prefix "NaN" s, strip_prefix "Infinity" s,
                      strip_prefix "-Infinity" s with
                | Some r, _, _ => Returned (VFloat FNaN, r)
                | _, Some r, _ => Returned (VFloat (FInf false), r)
                | _, _, Some r => Returned (VFloat (FInf true), r)
                | None, None, None =>
                    match match_number s with
                    | Some (Returned v, r) => Returned (v, r)
                    | Some (Raised e, _) => Raised e
                    | None => Raised expecting_value
                    end
                end
            end
      end
  end

(** [s] is where the next element starts; [acc] holds the elements read
    so far, latest first. *)
with parse_array (fuel depth : nat) (s : string) (acc : list Value)
  : Outcome (Value * string) :=
  match fuel with
  | O => Raised out_of_fuel
  | S fuel' =>
      match scan_once fuel' depth s with
      | Raised e => Raised e
      | Returned (v, r) =>
          match eat "]" (skip_ws r), eat "," (skip_ws r) with
          | Some r', _ => Returned (VList (rev (v :: acc)), r')
          | None, Some r' => parse_array fuel' depth (skip_ws r') (v :: acc)
          | None, None => Raised (JSONDecodeError "Expecting ',' delimiter")
          end
      end
  end

(** [s] is where the next key's opening quote must be. *)
with parse_object (fuel depth : nat) (s : string) (acc : list (string * Value))
  : Outcome (Value * string) :=
  match fuel with
  | O => Raised out_of_fuel
  | S fuel' =>
      match eat dquote s with
      | Some r =>
          match scanstring (S (String.length r)) r "" with
          | Raised e => Raised e
          | Returned (key, r1) =>
              match eat ":" (skip_ws r1) with
              | Some r2 =>
                  match scan_once fuel' depth (skip_ws r2) with
                  | Raised e => Raised e
                  | Returned (v, r3) =>
                      let acc' := dict_set acc key v in
                      match eat "}" (skip_ws r3), eat "," (skip_ws r3) with
                      | Some r4, _ => Returned (VDict acc', r4)
                      | None, Some r4 => parse_object fuel' depth (skip_ws r4) acc'
                      | None, None => Raised (JSONDecodeError "Expecting ',' delimiter")
                      end
                  end
              | None => Raised (JSONDecodeError "Expecting ':' delimiter")
              end
          end
      | None =>
          Raised (JSONDecodeError "Expecting property name enclosed in double quotes")
      end
  end.

(** U+FEFF in UTF-8. *)
Definition BOM : string :=
  String (ascii_of_N 239) (String (ascii_of_N 187) (String (ascii_of_N 191) EmptyString)).

(** [json.loads(s)] for a [str], called where the interpreter's recursion
    limit leaves room for [recursion_limit] arrays and objects inside one
    another. *)
Definition loads (recursion_limit : nat) (s : string) : Outcome Value :=
  match strip_prefix BOM s with
  | Some _ => Raised (JSONDecodeError "Unexpected UTF-8 BOM (decode using utf-8-sig)")
  | None =>
      match scan_once (2 * String.length s + 2) recursion_limit (skip_ws s) with
      | Raised e => Raised e
      | Returned (v, r) =>
          match skip_ws r with
          | EmptyString => Returned v
          | _ => Raised (JSONDecodeError "Extra data")
          end
      end
  end.

(** The exceptions of the decoder: a [ValueError] for a text that is not
    JSON, a [RecursionError] for one that is nested too deeply. *)
Definition decoder_exception (e : Exn) : bool :=
  match exn_kind e with
  | IsValueError => true
  | IsException => String.eqb (exn_class e) "RecursionError"
  | IsBaseException => false
  end.

(** A scan of [s] either fails with an exception of the decoder or stops
    strictly inside [s]. *)
Definition scans {A} (s : string) (res : Outcome (A * string)) : Prop :=
  match res with
  | Raised e => decoder_exception e = true
  | Returned (_, r) => (String.length r < String.length s)%nat
  end.

End Json.

(* ================================================================== *)
(** ** [os.path] (posixpath) *)
(* ================================================================== *)

Module OsPath.

(** [p.rfind(c)]: the highest index of [c] in [p], or -1. *)
Fixpoint rfind_from (c : ascii) (p : string) (i last : Z) : Z :=
  match p with
  | EmptyString => last
  | String a p' => rfind_from c p' (i + 1) (if Ascii.eqb a c then i else last)
  end.

Definition rfind (c : ascii) (p : string) : Z := rfind_from c p 0 (-1).

(** The [while filenameIndex < dotIndex] loop of [_splitext]: [true] when
    it returns the split, that is when some character of the file name
    before the last dot is not a dot; [remaining] counts the iterations
    left. *)
Fixpoint leading_dots_end (p : string) (filenameIndex remaining : nat) : bool :=
  match remaining with
  | O => false
  | S k =>
      match String.get filenameIndex p with
      | Some c =>
          if Ascii.eqb c "." then leading_dots_end p (S filenameIndex) k else true
      | None => true
      end
  end.

Definition splitext (p : string) : string * string :=
  let sepIndex := rfind "/" p in
  let dotIndex := rfind "." p in
  if (sepIndex <? dotIndex)
     && leading_dots_end p (Z.to_nat (sepIndex + 1))
          (Z.to_nat (dotIndex - (sepIndex + 1)))
  then
    (substring 0 (Z.to_nat dotIndex) p,
     substring (Z.to_nat dotIndex) (String.length p - Z.to_nat dotIndex) p)
  else (p, "").

Definition startswith_sep (b : string) : bool :=
  match b with String "/" _ => true | _ => false end.

Fixpoint endswith_sep (a : string) : bool :=
  match a with
  | EmptyString => false
  | String c EmptyString => Ascii.eqb c "/"
  | String _ a' => endswith_sep a'
  end.

(** [os.path.join(a, b)] with one component after the first. *)
Definition join (a b : string) : string :=
  if startswith_sep b then b
  else if String.eqb a "" || endswith_sep a then a +:+ b
  else a +:+ "/" +:+ b.

End OsPath.

(* ================================================================== *)
(** ** The world outside the source file *)
(* ================================================================== *)

Import Py.

Definition bytes := list byte.

(** [requests.Response], as far as the worker reads it. *)
Record Response := {
  status_code : Z;
  content : bytes
}.

(** [Image.Resampling] *)
Inductive Resampling := NEAREST | BOX | BILINEAR | HAMMING | BICUBIC | LANCZOS.

(** A PIL image: its size and pixel data. *)
Record Image := {
  im_size : Z * Z;
  im_data : bytes
}.

(** One SQS message as [receive_message] delivers it: boto3 always fills
    [ReceiptHandle] and [Body]; [Attributes] holds what the queue sent. *)
Record Message := {
  ReceiptHandle : string;
  Attributes : gmap string string;
  Body : string
}.

(** The boto3 SQS client handed to the worker's functions.
    [receive_message] takes the queue URL, [MaxNumberOfMessages],
    [VisibilityTimeout] and [WaitTimeSeconds]; the answer is the list under
    the key [Messages], when the response has that key. *)
Record SqsClient := {
  receive_message : option string -> Z -> Z -> Z -> Outcome (option (list Message));
  send_message : option string -> string -> Outcome unit;
  delete_message : option string -> string -> Outcome unit
}.

(** Module globals and the libraries behind them. [str_of_compound] is
    [str] on floats, lists and dicts, which the worker only ever pastes
    into a file name. One run of [process_message] asks each collaborator
    at most once, so an answer that is a function of the arguments loses
    nothing over one that depends on earlier calls. [recursion_limit] is
    what the interpreter's recursion limit leaves of nesting depth to
    [json.loads] where [process_valid_message] calls it. *)
Record World := {
  SQS_QUEUE_URL : option string;
  DEAD_LETTER_QUEUE_URL : option string;
  requests_get : Value -> Outcome Response;
  builtin_open : string -> string -> Outcome unit;
  file_write : string -> bytes -> Outcome unit;
  file_close : string -> Outcome unit;
  Image_open : bytes -> Outcome Image;
  Image_thumbnail : Image -> Z * Z -> Resampling -> Outcome Image;
  Image_save : Image -> string -> Outcome unit;
  str_of_compound : Value -> string;
  recursion_limit : nat
}.

Definition ORIGINALS_DIR : string := "originals".
Definition RESIZED_DIR : string := "resized".

(** *** Traces *)

Inductive LogLevel := INFO | ERROR | EXCEPTION.

(** One constructor per logging call of the source, holding the values its
    f-string interpolates. *)
Inductive LogMessage :=
| FailedToDownload (url : Value)
| NoMessagesReceived
| ErrorReceiving (e : Exn)
| UnableToParseBody (e : Exn)
| ErrorProcessing (e : Exn)
| InvalidFormat
| ProcessedSuccessfully (image_id : Value)
| MovingToDeadLetterQueue.

(** A call that left the source file, with its arguments and how it ended. *)
Inductive Event :=
| Log (level : LogLevel) (msg : LogMessage)
| RequestsGet (url : Value) (r : Outcome Response)
| ReceiveMessage (QueueUrl : option string)
    (MaxNumberOfMessages VisibilityTimeout WaitTimeSeconds : Z)
    (r : Outcome (option (list Message)))
| SendMessage (QueueUrl : option string) (MessageBody : string) (r : Outcome unit)
| DeleteMessage (QueueUrl : option string) (receipt_handle : string) (r : Outcome unit)
| Open (path mode : string) (r : Outcome unit)
| Write (path : string) (data : bytes) (r : Outcome unit)
| Close (path : string) (r : Outcome unit)
| ImageOpen (data : bytes) (r : Outcome Image)
| ImageThumbnail (im : Image) (size : Z * Z) (resample : Resampling) (r : Outcome Image)
| ImageSave (im : Image) (path : string) (r : Outcome unit).

(** *** The effect monad: an outcome and the calls made on the way *)

Definition M (A : Type) : Type := Outcome A * list Event.

Definition outcome {A} (m : M A) : Outcome A := fst m.
Definition trace {A} (m : M A) : list Event := snd m.

#[global] Instance M_ret : MRet M := fun A a => (Returned a, []).

#[global] Instance M_bind : MBind M := fun A B f m =>
  match m with
  | (Returned a, t) => let '(r, t') := f a in (r, t ++ t')
  | (Raised e, t) => (Raised e, t)
  end.

Definition raise {A} (e : Exn) : M A := (Raised e, []).

(** A pure computation that may raise. *)
Definition lift {A} (r : Outcome A) : M A := (r, []).

(** A call to a collaborator: its outcome, recorded. *)
Definition call {A} (ev : Outcome A -> Event) (r : Outcome A) : M A := (r, [ev r]).

Definition logger (level : LogLevel) (msg : LogMessage) : M unit :=
  (Returned tt, [Log level msg]).

(** [try: body  except C1 as e: h1  except C2 as e: h2 ...]: the first
    clause whose class test accepts the exception handles it. *)
Definition try_except {A} (body : M A)
    (clauses : list ((Exn -> bool) * (Exn -> M A))) : M A :=
  match body with
  | (Raised e, t) =>
      match List.find (fun c => fst c e) clauses with
      | Some c => let '(r, t') := snd c e in (r, t ++ t')
      | None => (Raised e, t)
      end
  | (Returned a, t) => (Returned a, t)
  end.

(** [try: body  finally: cleanup], as the [with] statement uses it: the
    cleanup always runs, and an exception of its own replaces the body's. *)
Definition try_finally {A} (body : M A) (cleanup : M unit) : M A :=
  let '(r, t) := body in
  let '(rc, tc) := cleanup in
  (match rc with Raised e => Raised e | Returned _ => r end, t ++ tc).

(* ================================================================== *)
(** ** The worker *)
(* ================================================================== *)

(** [str(v)], as an f-string applies it. *)
Definition str (w : World) (v : Value) : string :=
  match v with
  | VStr s => s
  | VInt z => NilZero.string_of_int (Z.to_int z)
  | VBool true => "True"
  | VBool false => "False"
  | VNone => "None"
  | VFloat _ | VList _ | VDict _ => str_of_compound w v
  end.

(** [d[k]] on a [dict] of strings. *)
Definition subscript (d : gmap string string) (k : string) : Outcome string :=
  match d !! k with
  | Some v => Returned v
  | None => Raised (KeyError k)
  end.

(** A [BytesIO] is true whatever it holds, so [None] is the only false
    result of [download_image]: it is an [option]. *)
Definition download_image (w : World) (url : Value) : M (option bytes) :=
  response ← call (RequestsGet url) (requests_get w url);
  if status_code response =? 200 then
    mret (Some (content response))
  else
    logger ERROR (FailedToDownload url);;
    mret None.

Definition get_image_ext (url : Value) : Outcome string :=
  match url with
  | VStr u =>
      let '(_, ext) := OsPath.splitext u in
      Returned (if String.eqb ext "" then ".jpg" else ext)
  | _ => Raised (TypeError "expected str, bytes or os.PathLike object")
  end.

Definition save_original_image (w : World) (image_data : bytes)
    (original_image_path : string) : M unit :=
  call (Open original_image_path "wb") (builtin_open w original_image_path "wb");;
  try_finally
    (call (Write original_image_path image_data)
       (file_write w original_image_path image_data))
    (call (Close original_image_path) (file_close w original_image_path)).

Definition resize_and_save_image (w : World) (image_data : bytes)
    (resized_image_path : string) : M unit :=
  image ← call (ImageOpen image_data) (Image_open w image_data);
  image ← call (ImageThumbnail image (256, 256) LANCZOS)
            (Image_thumbnail w image (256, 256) LANCZOS);
  call (ImageSave image resized_image_path) (Image_save w image resized_image_path).

Definition send_to_dead_letter_queue (w : World) (sqs_client : SqsClient)
    (message : string) : M unit :=
  logger ERROR MovingToDeadLetterQueue;;
  call (SendMessage (DEAD_LETTER_QUEUE_URL w) message)
    (send_message sqs_client (DEAD_LETTER_QUEUE_URL w) message).

Definition process_valid_message (w : World) (message : Message)
    (sqs_client : SqsClient) (sqs_queue_url : option string)
    (receipt_handle originals_dir resized_dir : string) : M unit :=
  body ← lift (Json.loads (recursion_limit w) (Body message));
  image_id ← lift (Py.get body "id");
  image_url ← lift (Py.get body "image_url");
  if negb (truthy image_id) || negb (truthy image_url) then
    logger ERROR InvalidFormat
  else
    image_data ← download_image w image_url;
    match image_data with
    | Some image_data =>
        image_ext ← lift (get_image_ext image_url);
        let original_image_path :=
          OsPath.join originals_dir (str w image_id +:+ image_ext) in
        save_original_image w image_data original_image_path;;
        let resized_image_path :=
          OsPath.join resized_dir (str w image_id +:+ image_ext) in
        resize_and_save_image w image_data resized_image_path;;
        logger INFO (ProcessedSuccessfully image_id);;
        call (DeleteMessage sqs_queue_url receipt_handle)
          (delete_message sqs_client sqs_queue_url receipt_handle)
    | None => mret tt
    end.

(** The body of the [try] in [process_message]. *)
Definition process_message_try (w : World) (sqs_client : SqsClient)
    (message : Message) : M unit :=
  let receipt_handle := ReceiptHandle message in
  count ← lift (subscript (Attributes message) "ApproximateReceiveCount");
  receive_count ← lift (Py.int count);
  if 10 <? receive_count then
    send_to_dead_letter_queue w sqs_client (Body message);;
    call (DeleteMessage (SQS_QUEUE_URL w) receipt_handle)
      (delete_message sqs_client (SQS_QUEUE_URL w) receipt_handle)
  else
    process_valid_message w message sqs_client (SQS_QUEUE_URL w) receipt_handle
      ORIGINALS_DIR RESIZED_DIR.

Definition process_message (w : World) (sqs_client : SqsClient)
    (message : Message) : M unit :=
  try_except (process_message_try w sqs_client message)
    [ (isinstance_ValueError, fun e => logger ERROR (UnableToParseBody e));
      (isinstance_Exception, fun e => logger EXCEPTION (ErrorProcessing e)) ].

(** [for message in messages: f(message)] *)
Fixpoint for_each {A} (l : list A) (f : A -> M unit) : M unit :=
  match l with
  | [] => mret tt
  | x :: l' => f x;; for_each l' f
  end.

(** One turn of the [while True] loop of [receive_messages]. *)
Definition receive_messages_iteration (w : World) (sqs_client : SqsClient) : M unit :=
  try_except
    (response ← call (ReceiveMessage (SQS_QUEUE_URL w) 1 10 20)
                  (receive_message sqs_client (SQS_QUEUE_URL w) 1 10 20);
     match response with
     | Some messages => for_each messages (process_message w sqs_client)
     | None => logger INFO NoMessagesReceived
     end)
    [ (isinstance_Exception, fun e => logger ERROR (ErrorReceiving e)) ].

(* ================================================================== *)
(** ** Reading messages and traces *)
(* ================================================================== *)

(** [int(message['Attributes']['ApproximateReceiveCount'])] *)
Definition receive_count (m : Message) : Outcome Z :=
  match subscript (Attributes m) "ApproximateReceiveCount" with
  | Returned count => Py.int count
  | Raised e => Raised e
  end.

(** The calls of one kind in a trace, oldest first. *)
Definition delete_calls (t : list Event) : list (option string * string) :=
  omap (fun ev => match ev with DeleteMessage q rh _ => Some (q, rh) | _ => None end) t.

Definition send_calls (t : list Event) : list (option string * string) :=
  omap (fun ev => match ev with SendMessage q body _ => Some (q, body) | _ => None end) t.

Definition fetch_calls (t : list Event) : list Value :=
  omap (fun ev => match ev with RequestsGet url _ => Some url | _ => None end) t.

(** Calls made by [save_original_image] and [resize_and_save_image]. *)
Definition is_persist (ev : Event) : bool :=
  match ev with
  | Open _ _ _ | Write _ _ _ | Close _ _
  | ImageOpen _ _ | ImageThumbnail _ _ _ _ | ImageSave _ _ _ => true
  | _ => false
  end.

Definition persist_calls (t : list Event) : list Event := List.filter is_persist t.

(** Files that were written completely: the path of every successful
    [write] and of every successful [Image.save]. *)
Definition artifacts (t : list Event) : list string :=
  omap (fun ev =>
          match ev with
          | Write path _ (Returned _) => Some path
          | ImageSave _ path (Returned _) => Some path
          | _ => None
          end) t.

(** What the two [except] clauses of [process_message] add to a run that
    ended with [r], and how the handler itself then ends. *)
Definition handled (r : Outcome unit) : list Event :=
  match r with
  | Returned _ => []
  | Raised e =>
      if isinstance_ValueError e then [Log ERROR (UnableToParseBody e)]
      else if isinstance_Exception e then [Log EXCEPTION (ErrorProcessing e)]
      else []
  end.

Definition after_handlers (r : Outcome unit) : Outcome unit :=
  match r with
  | Returned _ => Returned tt
  | Raised e => if isinstance_Exception e then Returned tt else Raised e
  end.

(** The calls of a quarantine, written out from the collaborators' answers
    alone: the body is passed on as it came and never decoded. *)
Definition quarantine_events (w : World) (sqs_client : SqsClient)
    (receipt_handle body : string) : list Event :=
  let sent := send_message sqs_client (DEAD_LETTER_QUEUE_URL w) body in
  Log ERROR MovingToDeadLetterQueue
  :: SendMessage (DEAD_LETTER_QUEUE_URL w) body sent
  :: match sent with
     | Returned _ =>
         let deleted := delete_message sqs_client (SQS_QUEUE_URL w) receipt_handle in
         DeleteMessage (SQS_QUEUE_URL w) receipt_handle deleted :: handled deleted
     | Raised e => handled (Raised e)
     end.

(** Calls made by [resize_and_save_image]. *)
Definition is_resize (ev : Event) : bool :=
  match ev with
  | ImageOpen _ _ | ImageThumbnail _ _ _ _ | ImageSave _ _ _ => true
  | _ => false
  end.

(** A call of [resize_and_save_image] that raised. *)
Definition resize_failed (ev : Event) : bool :=
  match ev with
  | ImageOpen _ (Raised _) | ImageThumbnail _ _ _ (Raised _) | ImageSave _ _ (Raised _) => true
  | _ => false
  end.

(* ================================================================== *)
(** ** Concrete worlds and messages *)
(* ================================================================== *)

Module Scenario.

Definition png : bytes := [x89; x50; x4e; x47].

(** Every collaborator succeeds; the server answers 200. *)
Definition world : World := {|
  SQS_QUEUE_URL := Some "https://sqs/main";
  DEAD_LETTER_QUEUE_URL := Some "https://sqs/dead";
  requests_get := fun _ => Returned {| status_code := 200; content := png |};
  builtin_open := fun _ _ => Returned tt;
  file_write := fun _ _ => Returned tt;
  file_close := fun _ => Returned tt;
  Image_open := fun data => Returned {| im_size := (1024, 512); im_data := data |};
  Image_thumbnail := fun im size resample =>
    Returned {| im_size := (256, 128); im_data := im_data im |};
  Image_save := fun _ _ => Returned tt;
  str_of_compound := fun _ => "<object>";
  recursion_limit := 990
|}.

Definition with_status (code : Z) : World := {|
  SQS_QUEUE_URL := SQS_QUEUE_URL world;
  DEAD_LETTER_QUEUE_URL := DEAD_LETTER_QUEUE_URL world;
  requests_get := fun _ => Returned {| status_code := code; content := [] |};
  builtin_open := builtin_open world;
  file_write := file_write world;
  file_close := file_close world;
  Image_open := Image_open world;
  Image_thumbnail := Image_thumbnail world;
  Image_save := Image_save world;
  str_of_compound := str_of_compound world;
  recursion_limit := recursion_limit world
|}.

Definition UnidentifiedImageError : Exn :=
  mkExn IsException "UnidentifiedImageError" "cannot identify image file".

(** PIL cannot decode what was downloaded. *)
Definition undecodable : World := {|
  SQS_QUEUE_URL := SQS_QUEUE_URL world;
  DEAD_LETTER_QUEUE_URL := DEAD_LETTER_QUEUE_URL world;
  requests_get := requests_get world;
  builtin_open := builtin_open world;
  file_write := file_write world;
  file_close := file_close world;
  Image_open := fun _ => Raised UnidentifiedImageError;
  Image_thumbnail := Image_thumbnail world;
  Image_save := Image_save world;
  str_of_compound := str_of_compound world;
  recursion_limit := recursion_limit world
|}.

Definition sqs : SqsClient := {|
  receive_message := fun _ _ _ _ => Returned None;
  send_message := fun _ _ => Returned tt;
  delete_message := fun _ _ => Returned tt
|}.

Definition ClientError : Exn :=
  mkExn IsException "ClientError" "An error occurred when calling SendMessage".

(** The dead-letter queue rejects every send. *)
Definition sqs_send_fails : SqsClient := {|
  receive_message := fun _ _ _ _ => Returned None;
  send_message := fun _ _ => Raised ClientError;
  delete_message := fun _ _ => Returned tt
|}.

(** Bodies are written with ['] where the JSON text has a double quote. *)
Fixpoint json_text (s : string) : string :=
  match s with
  | EmptyString => EmptyString
  | String c s' => String (if Ascii.eqb c "'" then Json.dquote else c) (json_text s')
  end.

(** The queue hands out the one message [m]. *)
Definition sqs_delivering (m : Message) : SqsClient := {|
  receive_message := fun _ _ _ _ => Returned (Some [m]);
  send_message := fun _ _ => Returned tt;
  delete_message := fun _ _ => Returned tt
|}.

Definition message (count body : string) : Message := {|
  ReceiptHandle := "dummy_receipt_handle";
  Attributes := {[ "ApproximateReceiveCount" := count ]};
  Body := body
|}.

(** The body of the test suite's [mock_message]. *)
Definition image_123 : string :=
  json_text "{'id': '123', 'image_url': 'http://example.com/image.jpg'}".

Definition absolute_id : string :=
  json_text "{'id': '/tmp/x', 'image_url': 'http://example.com/image.png'}".

Definition no_fields : string := json_text "{'invalid': 'message'}".

Definition not_json : string := "not json".

End Scenario.

(* ================================================================== *)
(** ** The paths of a run *)
(* ================================================================== *)

(** Lines 104 to 111 of [process_valid_message]: what it does with a
    downloaded image once the extension is known. *)
Definition store (w : World) (sqs_client : SqsClient) (image_id : Value)
    (image_ext : string) (image_data : bytes) (sqs_queue_url : option string)
    (receipt_handle originals_dir resized_dir : string) : M unit :=
  save_original_image w image_data
    (OsPath.join originals_dir (str w image_id +:+ image_ext));;
  resize_and_save_image w image_data
    (OsPath.join resized_dir (str w image_id +:+ image_ext));;
  logger INFO (ProcessedSuccessfully image_id);;
  call (DeleteMessage sqs_queue_url receipt_handle)
    (delete_message sqs_client sqs_queue_url receipt_handle).

(** How a [with] block ends: the exception of [close] if it raised one,
    otherwise what the body did. *)
Definition with_outcome (body closing : Outcome unit) : Outcome unit :=
  match closing with Raised e => Raised e | Returned _ => body end.

(** The ways [store] can go, each with the outcome and the trace it
    leaves: one constructor for every call that can stop it. *)
Inductive Stored (w : World) (sqs_client : SqsClient) (image_id : Value)
    (image_data : bytes) (q : option string) (rh original resized : string)
  : M unit -> Prop :=
| stored_not_opened e :
    builtin_open w original "wb" = Raised e ->
    Stored w sqs_client image_id image_data q rh original resized
      (Raised e, [Open original "wb" (Raised e)])
| stored_not_written written closed e :
    builtin_open w original "wb" = Returned tt ->
    file_write w original image_data = written ->
    file_close w original = closed ->
    with_outcome written closed = Raised e ->
    Stored w sqs_client image_id image_data q rh original resized
      (Raised e,
       [Open original "wb" (Returned tt);
        Write original image_data written;
        Close original closed])
| stored_not_decoded e :
    builtin_open w original "wb" = Returned tt ->
    file_write w original image_data = Returned tt ->
    file_close w original = Returned tt ->
    Image_open w image_data = Raised e ->
    Stored w sqs_client image_id image_data q rh original resized
      (Raised e,
       [Open original "wb" (Returned tt);
        Write original image_data (Returned tt);
        Close original (Returned tt);
        ImageOpen image_data (Raised e)])
| stored_not_shrunk im e :
    builtin_open w original "wb" = Returned tt ->
    file_write w original image_data = Returned tt ->
    file_close w original = Returned tt ->
    Image_open w image_data = Returned im ->
    Image_thumbnail w im (256, 256) LANCZOS = Raised e ->
    Stored w sqs_client image_id image_data q rh original resized
      (Raised e,
       [Open original "wb" (Returned tt);
        Write original image_data (Returned tt);
        Close original (Returned tt);
        ImageOpen image_data (Returned im);
        ImageThumbnail im (256, 256) LANCZOS (Raised e)])
| stored_not_saved im im' e :
    builtin_open w original "wb" = Returned tt ->
    file_write w original image_data = Returned tt ->
    file_close w original = Returned tt ->
    Image_open w image_data = Returned im ->
    Image_thumbnail w im (256, 256) LANCZOS = Returned im' ->
    Image_save w im' resized = Raised e ->
    Stored w sqs_client image_id image_data q rh original resized
      (Raised e,
       [Open original "wb" (Returned tt);
        Write original image_data (Returned tt);
        Close original (Returned tt);
        ImageOpen image_data (Returned im);
        ImageThumbnail im (256, 256) LANCZOS (Returned im');
        ImageSave im' resized (Raised e)])
| stored_and_deleted im im' deleted :
    builtin_open w original "wb" = Returned tt ->
    file_write w original image_data = Returned tt ->
    file_close w original = Returned tt ->
    Image_open w image_data = Returned im ->
    Image_thumbnail w im (256, 256) LANCZOS = Returned im' ->
    Image_save w im' resized = Returned tt ->
    delete_message sqs_client q rh = deleted ->
    Stored w sqs_client image_id image_data q rh original resized
      (deleted,
       [Open original "wb" (Returned tt);
        Write original image_data (Returned tt);
        Close original (Returned tt);
        ImageOpen image_data (Returned im);
        ImageThumbnail im (256, 256) LANCZOS (Returned im');
        ImageSave im' resized (Returned tt);
        Log INFO (ProcessedSuccessfully image_id);
        DeleteMessage q rh deleted]).

(** The ways the [try] body of [process_message] can go. *)
Inductive TryPath (w : World) (sqs_client : SqsClient) (m : Message) : M unit -> Prop :=
| try_no_count e :
    receive_count m = Raised e ->
    TryPath w sqs_client m (Raised e, [])
| try_not_forwarded n e :
    receive_count m = Returned n -> 10 < n ->
    send_message sqs_client (DEAD_LETTER_QUEUE_URL w) (Body m) = Raised e ->
    TryPath w sqs_client m
      (Raised e,
       [Log ERROR MovingToDeadLetterQueue;
        SendMessage (DEAD_LETTER_QUEUE_URL w) (Body m) (Raised e)])
| try_quarantined n deleted :
    receive_count m = Returned n -> 10 < n ->
    send_message sqs_client (DEAD_LETTER_QUEUE_URL w) (Body m) = Returned tt ->
    delete_message sqs_client (SQS_QUEUE_URL w) (ReceiptHandle m) = deleted ->
    TryPath w sqs_client m
      (deleted,
       [Log ERROR MovingToDeadLetterQueue;
        SendMessage (DEAD_LETTER_QUEUE_URL w) (Body m) (Returned tt);
        DeleteMessage (SQS_QUEUE_URL w) (ReceiptHandle m) deleted])
| try_not_decoded n e :
    receive_count m = Returned n -> n <= 10 ->
    Json.loads (recursion_limit w) (Body m) = Raised e ->
    TryPath w sqs_client m (Raised e, [])
| try_no_object n body e :
    receive_count m = Returned n -> n <= 10 ->
    Json.loads (recursion_limit w) (Body m) = Returned body ->
    (forall d, body <> VDict d) ->
    Py.get body "id" = Raised e ->
    TryPath w sqs_client m (Raised e, [])
| try_incomplete n d :
    receive_count m = Returned n -> n <= 10 ->
    Json.loads (recursion_limit w) (Body m) = Returned (VDict d) ->
    truthy (dict_get d "id") = false \/ truthy (dict_get d "image_url") = false ->
    TryPath w sqs_client m (Returned tt, [Log ERROR InvalidFormat])
| try_not_fetched n d e :
    receive_count m = Returned n -> n <= 10 ->
    Json.loads (recursion_limit w) (Body m) = Returned (VDict d) ->
    truthy (dict_get d "id") = true -> truthy (dict_get d "image_url") = true ->
    requests_get w (dict_get d "image_url") = Raised e ->
    TryPath w sqs_client m (Raised e, [RequestsGet (dict_get d "image_url") (Raised e)])
| try_refused n d resp :
    receive_count m = Returned n -> n <= 10 ->
    Json.loads (recursion_limit w) (Body m) = Returned (VDict d) ->
    truthy (dict_get d "id") = true -> truthy (dict_get d "image_url") = true ->
    requests_get w (dict_get d "image_url") = Returned resp ->
    status_code resp <> 200 ->
    TryPath w sqs_client m
      (Returned tt,
       [RequestsGet (dict_get d "image_url") (Returned resp);
        Log ERROR (FailedToDownload (dict_get d "image_url"))])
| try_no_extension n d resp e :
    receive_count m = Returned n -> n <= 10 ->
    Json.loads (recursion_limit w) (Body m) = Returned (VDict d) ->
    truthy (dict_get d "id") = true -> truthy (dict_get d "image_url") = true ->
    requests_get w (dict_get d "image_url") = Returned resp ->
    status_code resp = 200 ->
    get_image_ext (dict_get d "image_url") = Raised e ->
    TryPath w sqs_client m
      (Raised e, [RequestsGet (dict_get d "image_url") (Returned resp)])
| try_stored n d resp ext r t :
    receive_count m = Returned n -> n <= 10 ->
    Json.loads (recursion_limit w) (Body m) = Returned (VDict d) ->
    truthy (dict_get d "id") = true -> truthy (dict_get d "image_url") = true ->
    requests_get w (dict_get d "image_url") = Returned resp ->
    status_code resp = 200 ->
    get_image_ext (dict_get d "image_url") = Returned ext ->
    Stored w sqs_client (dict_get d "id") (content resp)
      (SQS_QUEUE_URL w) (ReceiptHandle m)
      (OsPath.join ORIGINALS_DIR (str w (dict_get d "id") +:+ ext))
      (OsPath.join RESIZED_DIR (str w (dict_get d "id") +:+ ext)) (r, t) ->
    TryPath w sqs_client m
      (r, RequestsGet (dict_get d "image_url") (Returned resp) :: t).

(* ================================================================== *)
(** ** The consumption loop and the entry point *)
(* ================================================================== *)

(** [receive_messages], cut after [turns] turns of its [while True]: the
    loop itself has no exit, so a run is known by its finite beginnings.
    An exception that leaves a turn leaves the loop.  The collaborators need
    not answer alike on every turn: [w i] and [sqs_client i] are how they
    answer during turn [i]. *)
Fixpoint receive_messages_from (i turns : nat) (w : nat -> World)
    (sqs_client : nat -> SqsClient) : M unit :=
  match turns with
  | O => mret tt
  | S turns' =>
      receive_messages_iteration (w i) (sqs_client i);;
      receive_messages_from (S i) turns' w sqs_client
  end.

Definition receive_messages (turns : nat) (w : nat -> World)
    (sqs_client : nat -> SqsClient) : M unit :=
  receive_messages_from 0 turns w sqs_client.

(** What [main] needs beside the worker's world: the process environment,
    [os.makedirs] and [boto3.client], whose client is given by its answers
    on each turn of the loop. *)
Record Startup := {
  environ : gmap string string;
  os_makedirs : string -> bool -> Outcome unit;
  boto3_client :
    string -> string -> option string -> option string -> Outcome (nat -> SqsClient)
}.

(** [os.getenv(key)] and [os.getenv(key, default)] *)
Definition getenv (sys : Startup) (key : string) : option string := environ sys !! key.

Definition getenv_default (sys : Startup) (key default : string) : string :=
  match environ sys !! key with Some v => v | None => default end.

(** The module globals read from the environment. *)
Definition AWS_ACCESS_KEY_ID (sys : Startup) : option string := getenv sys "AWS_ACCESS_KEY_ID".
Definition AWS_SECRET_ACCESS_KEY (sys : Startup) : option string :=
  getenv sys "AWS_SECRET_ACCESS_KEY".
Definition AWS_REGION_NAME (sys : Startup) : string :=
  getenv_default sys "AWS_REGION_NAME" "us-east-1".

(** The worker's world with [SQS_QUEUE_URL] and [DEAD_LETTER_QUEUE_URL] as
    the environment gives them. *)
Definition with_globals (sys : Startup) (w : World) : World := {|
  SQS_QUEUE_URL := getenv sys "SQS_QUEUE_URL";
  DEAD_LETTER_QUEUE_URL := getenv sys "DEAD_LETTER_QUEUE_URL";
  requests_get := requests_get w;
  builtin_open := builtin_open w;
  file_write := file_write w;
  file_close := file_close w;
  Image_open := Image_open w;
  Image_thumbnail := Image_thumbnail w;
  Image_save := Image_save w;
  str_of_compound := str_of_compound w;
  recursion_limit := recursion_limit w
|}.

Definition required_env_vars : list string :=
  ["AWS_ACCESS_KEY_ID"; "AWS_SECRET_ACCESS_KEY"; "SQS_QUEUE_URL"; "DEAD_LETTER_QUEUE_URL"].

(** [not os.getenv(var)]: unset, or set to the empty string. *)
Definition not_set (sys : Startup) (var : string) : bool :=
  match getenv sys var with
  | None => true
  | Some v => String.eqb v ""
  end.

(** [exit(code)] raises [SystemExit]. *)
Definition SystemExit (code : string) : Exn := mkExn IsBaseException "SystemExit" code.

Definition isinstance_KeyboardInterrupt (e : Exn) : bool :=
  match exn_kind e with
  | IsBaseException => String.eqb (exn_class e) "KeyboardInterrupt"
  | _ => false
  end.

(** What [main] does that can be seen from outside; the worker's calls are
    wrapped in [Worker]. *)
Inductive MainEvent :=
| MissingVariables (missing_vars : list string)
| MakeDirs (path : string) (exist_ok : bool) (r : Outcome unit)
| Boto3Client (service region_name : string)
    (aws_access_key_id aws_secret_access_key : option string)
    (r : Outcome (nat -> SqsClient))
| Worker (ev : Event)
| Exiting.

Definition Main (A : Type) : Type := Outcome A * list MainEvent.

#[global] Instance Main_ret : MRet Main := fun A a => (Returned a, []).

#[global] Instance Main_bind : MBind Main := fun A B f m =>
  match m with
  | (Returned a, t) => let '(r, t') := f a in (r, t ++ t')
  | (Raised e, t) => (Raised e, t)
  end.

Definition main_call {A} (ev : Outcome A -> MainEvent) (r : Outcome A) : Main A :=
  (r, [ev r]).

Definition main_log (ev : MainEvent) : Main unit := (Returned tt, [ev]).

Definition main_raise {A} (e : Exn) : Main A := (Raised e, []).

(** A run of the worker inside [main]. *)
Definition worker {A} (m : M A) : Main A := (fst m, map Worker (snd m)).

(** The body of the [try] in [main]. *)
Definition main_try (sys : Startup) (w : nat -> World) (turns : nat) : Main unit :=
  let missing_vars := List.filter (not_set sys) required_env_vars in
  match missing_vars with
  | _ :: _ =>
      main_log (MissingVariables missing_vars);;
      main_raise (SystemExit "1")
  | [] =>
      main_call (MakeDirs ORIGINALS_DIR true) (os_makedirs sys ORIGINALS_DIR true);;
      main_call (MakeDirs RESIZED_DIR true) (os_makedirs sys RESIZED_DIR true);;
      sqs_client ← main_call
                     (Boto3Client "sqs" (AWS_REGION_NAME sys)
                        (AWS_ACCESS_KEY_ID sys) (AWS_SECRET_ACCESS_KEY sys))
                     (boto3_client sys "sqs" (AWS_REGION_NAME sys)
                        (AWS_ACCESS_KEY_ID sys) (AWS_SECRET_ACCESS_KEY sys));
      worker (receive_messages turns (fun i => with_globals sys (w i)) sqs_client)
  end.

(** [main], with the loop cut after [turns] turns: [except KeyboardInterrupt]
    is its only handler. *)
Definition main (sys : Startup) (w : nat -> World) (turns : nat) : Main unit :=
  match main_try sys w turns with
  | (Raised e, t) =>
      if isinstance_KeyboardInterrupt e then (Returned tt, t ++ [Exiting])
      else (Raised e, t)
  | (Returned a, t) => (Returned a, t)
  end.

(* ================================================================== *)
(** ** More readers of traces *)
(* ================================================================== *)


(** Paths of the files that were opened, and of those that were closed. *)
Definition opened (t : list Event) : list string :=
  omap (fun ev => match ev with Open path _ (Returned _) => Some path | _ => None end) t.

Definition closed (t : list Event) : list string :=
  omap (fun ev => match ev with Close path _ => Some path | _ => None end) t.

(** A call of [save_original_image] that raised. *)
Definition save_failed (ev : Event) : bool :=
  match ev with
  | Open _ _ (Raised _) | Write _ _ (Raised _) | Close _ (Raised _) => true
  | _ => false
  end.



(** The decimal numeral of a number, as the queue writes the receive count. *)
Definition numeral (n : nat) : string := NilZero.string_of_uint (Nat.to_uint n).

Fixpoint all_digits (s : string) : bool :=
  match s with
  | EmptyString => true
  | String c s' => Py.is_digit c && all_digits s'
  end.

(** A run ends well or on something that is no [Exception]. *)
Definition survives {A} (run : M A) : Prop :=
  (exists a, outcome run = Returned a)
  \/ exists e, outcome run = Raised e /\ isinstance_Exception e = false.

(** How a run of [main] ended and what it did. *)
Definition main_outcome {A} (run : Main A) : Outcome A := fst run.
Definition main_trace {A} (run : Main A) : list MainEvent := snd run.

(** The polls of the queue in a trace. *)
Definition receive_calls (t : list Event) : list (option string) :=
  omap (fun ev => match ev with ReceiveMessage q _ _ _ _ => Some q | _ => None end) t.

(** The queue URL a call was made with, for the calls that take one. *)
Definition queue_url (ev : Event) : option (option string) :=
  match ev with
  | ReceiveMessage q _ _ _ _ | SendMessage q _ _ | DeleteMessage q _ _ => Some q
  | _ => None
  end.

(** [n] copies of a trace, one after the other. *)
Fixpoint repeated (n : nat) (t : list Event) : list Event :=
  match n with
  | O => []
  | S k => t ++ repeated k t
  end.

(* ================================================================== *)
(** ** More worlds *)
(* ================================================================== *)

Module Cases.

Definition KeyboardInterrupt : Exn := mkExn IsBaseException "KeyboardInterrupt" "".

Definition ConnectionError : Exn :=
  mkExn IsException "ConnectionError" "Max retries exceeded".

Definition EndpointConnectionError : Exn :=
  mkExn IsException "EndpointConnectionError" "Could not connect to the endpoint URL".

Definition PermissionError : Exn := mkExn IsException "PermissionError" "Permission denied".

(** The delete is interrupted from the keyboard. *)
Definition sqs_interrupted : SqsClient := {|
  receive_message := fun _ _ _ _ => Returned None;
  send_message := fun _ _ => Returned tt;
  delete_message := fun _ _ => Raised KeyboardInterrupt
|}.

(** The queue cannot be reached. *)
Definition sqs_unreachable : SqsClient := {|
  receive_message := fun _ _ _ _ => Raised EndpointConnectionError;
  send_message := fun _ _ => Raised EndpointConnectionError;
  delete_message := fun _ _ => Raised EndpointConnectionError
|}.

(** The queue hands out the same messages on every poll. *)
Definition sqs_delivering (ms : list Message) : SqsClient := {|
  receive_message := fun _ _ _ _ => Returned (Some ms);
  send_message := fun _ _ => Returned tt;
  delete_message := fun _ _ => Returned tt
|}.

(** The image server cannot be reached. *)
Definition offline : World := {|
  SQS_QUEUE_URL := SQS_QUEUE_URL Scenario.world;
  DEAD_LETTER_QUEUE_URL := DEAD_LETTER_QUEUE_URL Scenario.world;
  requests_get := fun _ => Raised ConnectionError;
  builtin_open := builtin_open Scenario.world;
  file_write := file_write Scenario.world;
  file_close := file_close Scenario.world;
  Image_open := Image_open Scenario.world;
  Image_thumbnail := Image_thumbnail Scenario.world;
  Image_save := Image_save Scenario.world;
  str_of_compound := str_of_compound Scenario.world;
  recursion_limit := recursion_limit Scenario.world
|}.

(** The directory of the originals cannot be written to. *)
Definition read_only : World := {|
  SQS_QUEUE_URL := SQS_QUEUE_URL Scenario.world;
  DEAD_LETTER_QUEUE_URL := DEAD_LETTER_QUEUE_URL Scenario.world;
  requests_get := requests_get Scenario.world;
  builtin_open := fun _ _ => Raised PermissionError;
  file_write := file_write Scenario.world;
  file_close := file_close Scenario.world;
  Image_open := Image_open Scenario.world;
  Image_thumbnail := Image_thumbnail Scenario.world;
  Image_save := Image_save Scenario.world;
  str_of_compound := str_of_compound Scenario.world;
  recursion_limit := recursion_limit Scenario.world
|}.

(** A message without the receive count among its attributes. *)
Definition no_count : Message := {|
  ReceiptHandle := "dummy_receipt_handle";
  Attributes := {[ "SenderId" := "AIDAEXAMPLE" ]};
  Body := Scenario.image_123
|}.

Definition a_list : string := "[1, 2]".

(** [n] opening brackets. *)
Fixpoint brackets (n : nat) : string :=
  match n with
  | O => EmptyString
  | S k => String "[" (brackets k)
  end.

(** A body nested deeper than the recursion limit allows. *)
Definition too_deep : string := brackets 1500.

Definition numeric_url : string := Scenario.json_text "{'id': '123', 'image_url': 5}".

(** A complete environment, and one without the dead-letter queue. *)
Definition environment : gmap string string :=
  {[ "AWS_ACCESS_KEY_ID" := "AKIAEXAMPLE";
     "AWS_SECRET_ACCESS_KEY" := "secret";
     "SQS_QUEUE_URL" := "https://sqs/main";
     "DEAD_LETTER_QUEUE_URL" := "https://sqs/dead" ]}.

Definition startup (env : gmap string string) (client : SqsClient) : Startup := {|
  environ := env;
  os_makedirs := fun _ _ => Returned tt;
  boto3_client := fun _ _ _ _ => Returned (fun _ => client)
|}.

End Cases.

(* ================================================================== *)
(** ** Running the monad *)
(* ================================================================== *)

Section Monad.
Context {A B : Type}.

Lemma bind_lift (a : A) (f : A -> M B) : (lift (Returned a) ≫= f) = f a.
Proof. unfold lift, mbind, M_bind. destruct (f a); reflexivity. Qed.

Lemma bind_lift_raised (e : Exn) (f : A -> M B) :
  (lift (Raised e) ≫= f) = (Raised e, []).
Proof. reflexivity. Qed.
End Monad.

Ltac break_match :=
  match goal with
  | |- context [match ?x with _ => _ end] => destruct x eqn:?
  | H : context [match ?x with _ => _ end] |- _ => destruct x eqn:?
  end.

Ltac unfold_worker :=
  unfold process_valid_message, download_image, save_original_image,
    resize_and_save_image, send_to_dead_letter_queue, try_finally, call, logger,
    lift, raise, mbind, M_bind, mret, M_ret, outcome, trace in *.

(** The runtime functions stay folded while a run is taken apart. *)
Arguments Json.loads : simpl never.
Arguments Py.int : simpl never.
Arguments OsPath.splitext : simpl never.
Arguments OsPath.join : simpl never.
Arguments str : simpl never.
Arguments truthy : simpl never.
Arguments dict_get : simpl never.

(** Split a run of [process_message] into its paths: one goal for every
    way the collaborators and the message can make it go. *)
Ltac run_worker :=
  unfold process_message, process_message_try, try_except, receive_count, subscript in *;
  unfold_worker;
  unfold Py.get, get_image_ext, handled, after_handlers,
    isinstance_ValueError, isinstance_Exception in *;
  repeat (break_match; simplify_eq/=).

(** Go through a membership hypothesis on a trace that is written out. *)
Ltac in_cases :=
  repeat match goal with
         | H : _ \/ _ |- _ => destruct H as [H|H]; simplify_eq
         | H : False |- _ => destruct H
         | H : (_ =? _) = true |- _ => apply Z.eqb_eq in H
         end.

Ltac rewrite_outcomes :=
  repeat match goal with
         | H : ?x = Returned _ |- context [?x] => rewrite H
         | H : ?x = Raised _ |- context [?x] => rewrite H
         end.

(** [process_message] is its [try] body followed by the handlers. *)
Lemma process_message_handlers w sqs m :
  process_message w sqs m =
    (after_handlers (outcome (process_message_try w sqs m)),
     trace (process_message_try w sqs m)
       ++ handled (outcome (process_message_try w sqs m))).
Proof.
  unfold process_message, try_except, outcome, trace.
  destruct (process_message_try w sqs m) as [[[]|e] t]; cbn.
  - by rewrite app_nil_r.
  - unfold isinstance_ValueError, isinstance_Exception.
    destruct (exn_kind e); cbn; try reflexivity.
    by rewrite app_nil_r.
Qed.

(** The branch on the receive count. *)
Lemma process_message_try_dispatch w sqs m n :
  receive_count m = Returned n ->
  process_message_try w sqs m =
    if 10 <? n then
      send_to_dead_letter_queue w sqs (Body m);;
      call (DeleteMessage (SQS_QUEUE_URL w) (ReceiptHandle m))
        (delete_message sqs (SQS_QUEUE_URL w) (ReceiptHandle m))
    else
      process_valid_message w m sqs (SQS_QUEUE_URL w) (ReceiptHandle m)
        ORIGINALS_DIR RESIZED_DIR.
Proof.
  unfold receive_count, process_message_try. intros H.
  destruct (subscript _ _) as [c|e]; [|discriminate].
  rewrite bind_lift, H, bind_lift. reflexivity.
Qed.

Lemma quarantine_run w sqs m n :
  receive_count m = Returned n -> 10 < n ->
  trace (process_message w sqs m) = quarantine_events w sqs (ReceiptHandle m) (Body m).
Proof.
  intros Hn Hlt. rewrite process_message_handlers, (process_message_try_dispatch _ _ _ _ Hn).
  replace (10 <? n) with true by (symmetry; apply Z.ltb_lt; lia).
  unfold quarantine_events. unfold_worker.
  destruct (send_message _ _ _) as [[]|e]; cbn; [|reflexivity].
  destruct (delete_message _ _ _) as [[]|e]; cbn; reflexivity.
Qed.

(* ================================================================== *)
(** ** Floats that are false *)
(* ================================================================== *)

(** [float_is_zero] decides [m * 10^e <= 2^-1075]. *)
Lemma float_is_zero_spec neg m e :
  float_is_zero (FDec neg m e) = true <->
  m = 0%N \/ (e < 0 /\ Z.of_N m * 2 ^ 1075 <= 10 ^ (- e)).
Proof.
  unfold float_is_zero.
  destruct (N.eqb_spec m 0) as [->|Hm]; [tauto|].
  destruct (Z.leb_spec 0 e) as [He|He].
  { split; [discriminate|]. intros [?|[? _]]; [done|lia]. }
  destruct (Z.leb_spec (Z.of_N (N.size m) + 1075) (3 * - e)) as [Hs|Hs].
  - split; [|reflexivity]. intros _. right. split; [exact He|].
    assert (Z.of_N m < 2 ^ Z.of_N (N.size m)) as Hlt.
    { pose proof (N.size_gt m) as H. apply N2Z.inj_lt in H.
      rewrite N2Z.inj_pow in H. exact H. }
    assert (2 ^ (3 * - e) <= 10 ^ (- e)) as Hpow.
    { rewrite Z.pow_mul_r by lia. apply Z.pow_le_mono_l. lia. }
    assert (2 ^ (Z.of_N (N.size m) + 1075) <= 2 ^ (3 * - e)) as Hmono
      by (apply Z.pow_le_mono_r; lia).
    rewrite Z.pow_add_r in Hmono by lia.
    assert (0 < 2 ^ 1075) by (apply Z.pow_pos_nonneg; lia).
    nia.
  - rewrite Z.leb_le. split; [by right | intros [?|[_ ?]]; [done | assumption]].
Qed.

(* ================================================================== *)
(** ** The decoder stops, and fails only with its own exceptions *)
(* ================================================================== *)

(** The fuel handed to the scanner by [Json.loads] is never used up: every
    step of the scanner consumes input. So a body that does not decode
    raises a [JSONDecodeError], or a [RecursionError] when it is nested
    too deeply, and nothing else. *)
Module JsonFacts.
Import Json.

Lemma scans_mono {A} (s s' : string) (res : Outcome (A * string)) :
  scans s' res -> (String.length s' <= String.length s)%nat -> scans s res.
Proof. destruct res as [[a r]|e]; cbn; [lia | done]. Qed.

Lemma eat_length c s r : eat c s = Some r -> String.length s = S (String.length r).
Proof.
  destruct s as [|c' s']; cbn; [done|].
  destruct (Ascii.eqb c' c); intros; by simplify_eq.
Qed.

Lemma strip_prefix_length p : forall s r,
  strip_prefix p s = Some r ->
  String.length s = (String.length p + String.length r)%nat.
Proof.
  induction p as [|a p IH]; intros s r; cbn.
  - intros; by simplify_eq.
  - destruct s as [|b s]; [done|]. destruct (Ascii.eqb a b); [|done].
    intros H. cbn. by rewrite (IH _ _ H).
Qed.

Lemma skip_ws_length s : (String.length (skip_ws s) <= String.length s)%nat.
Proof.
  induction s as [|c s IH]; cbn; [lia|]. destruct (is_ws c); cbn; lia.
Qed.

Lemma hex4_length s v r :
  hex4 s = Some (v, r) -> String.length s = (4 + String.length r)%nat.
Proof.
  unfold hex4. repeat (break_match; try done). intros; by simplify_eq.
Qed.

Lemma scanstring_scans fuel : forall s acc,
  (String.length s < fuel)%nat -> scans s (scanstring fuel s acc).
Proof.
  induction fuel as [|fuel IH]; intros s acc Hlt; [lia|].
  destruct s as [|c rest]; cbn [scanstring]; [reflexivity|].
  cbn [String.length] in Hlt.
  destruct (Ascii.eqb c dquote); [cbn; lia|].
  destruct (Ascii.eqb c "\").
  - destruct rest as [|e rest']; [reflexivity|]. cbn [String.length] in Hlt.
    destruct (Ascii.eqb e "u").
    + destruct (hex4 rest') as [[hi after]|] eqn:Hh; [|reflexivity].
      apply hex4_length in Hh. cbn zeta.
      assert (scans (String c (String e rest'))
                (scanstring fuel after (acc +:+ utf8_encode hi))) as lone.
      { eapply scans_mono; [apply IH|]; cbn; lia. }
      destruct (is_high_surrogate hi); [|exact lone].
      destruct (strip_prefix "\u" after) as [low|] eqn:Hp; [|exact lone].
      apply strip_prefix_length in Hp.
      destruct (hex4 low) as [[lo after']|] eqn:Hh2; [|exact lone].
      apply hex4_length in Hh2.
      destruct (is_low_surrogate lo); [|exact lone].
      eapply scans_mono; [apply IH|]; cbn in *; lia.
    + destruct (simple_escape e); [|reflexivity].
      eapply scans_mono; [apply IH|]; cbn; lia.
  - destruct (N_of_ascii c <=? 31)%N; [reflexivity|].
    eapply scans_mono; [apply IH|]; cbn; lia.
Qed.

Lemma span_digits_length s : forall ds r,
  span_digits s = (ds, r) ->
  String.length s = (String.length ds + String.length r)%nat.
Proof.
  induction s as [|c s IH]; intros ds r; cbn.
  - intros; by simplify_eq.
  - destruct (is_digit c).
    + destruct (span_digits s) as [ds' r'] eqn:Hs. intros; simplify_eq.
      cbn. by rewrite (IH _ _ eq_refl).
    + intros; by simplify_eq.
Qed.

Lemma match_int_length s ids r :
  match_int s = Some (ids, r) -> (String.length r < String.length s)%nat.
Proof.
  unfold match_int. destruct s as [|c s']; [done|].
  destruct (Ascii.eqb c "0"); [intros; simplify_eq; cbn; lia|].
  destruct (is_digit c) eqn:Hc; [|done].
  cbn [span_digits]. rewrite Hc.
  destruct (span_digits s') as [ds r'] eqn:Hs. intros; simplify_eq.
  apply span_digits_length in Hs. cbn. lia.
Qed.

Lemma match_frac_length s fds r :
  match_frac s = (fds, r) -> (String.length r <= String.length s)%nat.
Proof.
  unfold match_frac. destruct (eat "." s) as [r0|] eqn:He; [|intros; simplify_eq; lia].
  apply eat_length in He.
  destruct (span_digits r0) as [f r'] eqn:Hs. apply span_digits_length in Hs.
  destruct (String.eqb f ""); intros; simplify_eq; lia.
Qed.

Lemma match_exp_length s e r :
  match_exp s = (e, r) -> (String.length r <= String.length s)%nat.
Proof.
  unfold match_exp.
  assert (forall r0, String.length s = S (String.length r0) ->
            (let '(eneg, r1) :=
               match eat "-" r0, eat "+" r0 with
               | Some x, _ => (true, x)
               | None, Some x => (false, x)
               | None, None => (false, r0)
               end in
             let '(eds, r2) := span_digits r1 in
             if String.eqb eds "" then (None, s)
             else (Some (if eneg then - Z.of_N (digits_value eds 0)
                         else Z.of_N (digits_value eds 0)), r2)) = (e, r) ->
            (String.length r <= String.length s)%nat) as Hsigned.
  { intros r0 Hr0.
    destruct (eat "-" r0) as [x|] eqn:Hm; [apply eat_length in Hm|
      destruct (eat "+" r0) as [x|] eqn:Hp; [apply eat_length in Hp|]].
    all: match goal with |- context [span_digits ?y] =>
           destruct (span_digits y) as [eds r2] eqn:Hs end.
    all: apply span_digits_length in Hs.
    all: destruct (String.eqb eds ""); intros; simplify_eq; lia. }
  destruct (eat "e" s) as [r0|] eqn:He.
  - apply eat_length in He. apply Hsigned, He.
  - destruct (eat "E" s) as [r0|] eqn:HE.
    + apply eat_length in HE. apply Hsigned, HE.
    + intros; simplify_eq; lia.
Qed.

Lemma match_number_length s res r :
  match_number s = Some (res, r) ->
  (String.length r < String.length s)%nat
  /\ (forall e, res = Raised e -> exn_kind e = IsValueError).
Proof.
  unfold match_number.
  assert (forall neg s1, (String.length s1 <= String.length s)%nat ->
            match match_int s1 with
            | None => None
            | Some (ids, s2) =>
                let '(fds, s3) := match_frac s2 in
                let '(exp, s4) := match_exp s3 in
                match fds, exp with
                | EmptyString, None =>
                    if (max_str_digits <? N.of_nat (String.length ids))%N then
                      Some (Raised exceeds_digit_limit, s4)
                    else
                      Some (Returned (VInt (if neg : bool
                                            then - Z.of_N (digits_value ids 0)
                                            else Z.of_N (digits_value ids 0))), s4)
                | _, _ =>
                    Some (Returned
                            (VFloat (FDec neg (digits_value (ids +:+ fds) 0)
                                       (match exp with Some e => e | None => 0 end
                                        - Z.of_nat (String.length fds)))), s4)
                end
            end = Some (res, r) ->
            (String.length r < String.length s)%nat
            /\ (forall e, res = Raised e -> exn_kind e = IsValueError)) as Hbody.
  { intros neg s1 Hs1.
    destruct (match_int s1) as [[ids s2]|] eqn:Hi; [|done].
    apply match_int_length in Hi.
    destruct (match_frac s2) as [fds s3] eqn:Hf. apply match_frac_length in Hf.
    destruct (match_exp s3) as [exp s4] eqn:Hx. apply match_exp_length in Hx.
    destruct fds, exp; try destruct (_ <? _)%N; intros; simplify_eq;
      (split; [lia | intros; by simplify_eq]). }
  destruct (eat "-" s) as [s1|] eqn:Hneg.
  - apply eat_length in Hneg. apply Hbody. lia.
  - apply Hbody. lia.
Qed.

Lemma scan_all fuel :
  (forall depth s, (2 * String.length s + 1 <= fuel)%nat ->
     scans s (scan_once fuel depth s))
  /\ (forall depth s acc, (2 * String.length s + 2 <= fuel)%nat ->
        scans s (parse_array fuel depth s acc))
  /\ (forall depth s acc, (2 * String.length s + 2 <= fuel)%nat ->
        scans s (parse_object fuel depth s acc)).
Proof.
  induction fuel as [|fuel (IHs & IHa & IHo)]; [repeat split; intros; lia|].
  repeat split.
  - intros depth s Hf. destruct s as [|c rest]; cbn [scan_once]; [reflexivity|].
    cbn [String.length] in Hf.
    pose proof (skip_ws_length rest) as Hws.
    destruct (Ascii.eqb c dquote).
    { pose proof (scanstring_scans (S (String.length rest)) rest "" ltac:(lia)) as Hstr.
      destruct (scanstring _ rest "") as [[str r]|e]; cbn in *; [lia | done]. }
    destruct (Ascii.eqb c "{").
    { destruct depth as [|depth]; [reflexivity|].
      destruct (eat "}" (skip_ws rest)) as [r|] eqn:He.
      - apply eat_length in He. cbn. lia.
      - eapply scans_mono; [apply IHo|]; cbn; lia. }
    destruct (Ascii.eqb c "[").
    { destruct depth as [|depth]; [reflexivity|].
      destruct (eat "]" (skip_ws rest)) as [r|] eqn:He.
      - apply eat_length in He. cbn. lia.
      - eapply scans_mono; [apply IHa|]; cbn; lia. }
    repeat match goal with
           | |- context [strip_prefix ?p ?x] =>
               let H := fresh "Hp" in
               destruct (strip_prefix p x) eqn:H;
               [apply strip_prefix_length in H; cbn in H |- *; lia|]
           end.
    destruct (match_number _) as [[[v|e] r]|] eqn:Hn; [| |reflexivity].
    + apply match_number_length in Hn as [Hn _]. exact Hn.
    + apply match_number_length in Hn as [_ Hn].
      cbn. unfold decoder_exception. by rewrite (Hn e eq_refl).
  - intros depth s acc Hf. cbn [parse_array].
    pose proof (IHs depth s ltac:(lia)) as Hv.
    destruct (scan_once fuel depth s) as [[v r]|e]; [|exact Hv]. cbn in Hv.
    pose proof (skip_ws_length r) as Hws.
    destruct (eat "]" (skip_ws r)) as [r'|] eqn:He.
    { apply eat_length in He. cbn. lia. }
    destruct (eat "," (skip_ws r)) as [r'|] eqn:Hc; [|reflexivity].
    apply eat_length in Hc. pose proof (skip_ws_length r').
    eapply scans_mono; [apply IHa|]; lia.
  - intros depth s acc Hf. cbn [parse_object].
    destruct (eat dquote s) as [r|] eqn:Hq; [|reflexivity].
    apply eat_length in Hq.
    pose proof (scanstring_scans (S (String.length r)) r "" ltac:(lia)) as Hstr.
    destruct (scanstring _ r "") as [[key r1]|e]; [|exact Hstr]. cbn in Hstr.
    pose proof (skip_ws_length r1).
    destruct (eat ":" (skip_ws r1)) as [r2|] eqn:Hc; [|reflexivity].
    apply eat_length in Hc. pose proof (skip_ws_length r2).
    pose proof (IHs depth (skip_ws r2) ltac:(lia)) as Hv.
    destruct (scan_once fuel depth (skip_ws r2)) as [[v r3]|e]; [|exact Hv]. cbn in Hv.
    pose proof (skip_ws_length r3). cbn zeta.
    destruct (eat "}" (skip_ws r3)) as [r4|] eqn:He.
    { apply eat_length in He. cbn. lia. }
    destruct (eat "," (skip_ws r3)) as [r4|] eqn:Hm; [|reflexivity].
    apply eat_length in Hm. pose proof (skip_ws_length r4).
    eapply scans_mono; [apply IHo|]; lia.
Qed.

(** Whatever [json.loads] raises is a [ValueError] or a [RecursionError]:
    the fuel never runs out. *)
Lemma loads_raises limit s e :
  loads limit s = Raised e -> decoder_exception e = true.
Proof.
  unfold loads.
  destruct (strip_prefix BOM s); [intros; by simplify_eq|].
  pose proof (skip_ws_length s).
  pose proof (proj1 (scan_all (2 * String.length s + 2)) limit (skip_ws s) ltac:(lia)) as Hs.
  destruct (scan_once _ _ _) as [[v r]|e']; cbn in Hs.
  - destruct (skip_ws r); intros; by simplify_eq.
  - intros; by simplify_eq.
Qed.

(** Either way it is an [Exception], and the handler for [ValueError]
    takes it exactly when it is no [RecursionError]. *)
Lemma decoder_exception_kinds e :
  decoder_exception e = true ->
  isinstance_Exception e = true
  /\ (isinstance_ValueError e = true
      \/ (isinstance_ValueError e = false /\ exn_class e = "RecursionError")).
Proof.
  unfold decoder_exception, isinstance_Exception, isinstance_ValueError.
  destruct (exn_kind e); intros H; try done.
  - split; [done|]. by left.
  - split; [done|]. right. split; [done|]. by apply String.eqb_eq.
Qed.

End JsonFacts.

(* ================================================================== *)
(** ** Which calls a run makes *)
(* ================================================================== *)

Lemma send_calls_app t1 t2 : send_calls (t1 ++ t2) = send_calls t1 ++ send_calls t2.
Proof. apply omap_app. Qed.

Lemma delete_calls_app t1 t2 :
  delete_calls (t1 ++ t2) = delete_calls t1 ++ delete_calls t2.
Proof. apply omap_app. Qed.

(** The handlers only log. *)
Lemma handled_quiet r :
  send_calls (handled r) = [] /\ delete_calls (handled r) = [] /\
  fetch_calls (handled r) = [] /\ persist_calls (handled r) = [].
Proof.
  destruct r as [[]|e]; cbn; [done|].
  destruct (isinstance_ValueError e), (isinstance_Exception e); done.
Qed.

Lemma quarantine_events_calls w sqs rh body :
  let t := quarantine_events w sqs rh body in
  send_calls t = [(DEAD_LETTER_QUEUE_URL w, body)]
  /\ delete_calls t =
       match send_message sqs (DEAD_LETTER_QUEUE_URL w) body with
       | Returned _ => [(SQS_QUEUE_URL w, rh)]
       | Raised _ => []
       end
  /\ fetch_calls t = [] /\ persist_calls t = [].
Proof.
  unfold quarantine_events, handled, isinstance_ValueError, isinstance_Exception.
  cbn zeta.
  destruct (send_message _ _ _) as [[]|e]; [destruct (delete_message _ _ _) as [[]|e]|];
    try destruct (exn_kind e); done.
Qed.

(** Normal processing never talks to the dead-letter queue. *)
Lemma valid_message_never_sends w m sqs q rh od rd :
  send_calls (trace (process_valid_message w m sqs q rh od rd)) = [].
Proof.
  unfold_worker.
  repeat (break_match; simplify_eq/=; try reflexivity).
Qed.

Lemma normal_run_never_sends w sqs m n :
  receive_count m = Returned n -> n <= 10 ->
  send_calls (trace (process_message w sqs m)) = [].
Proof.
  intros Hn Hle.
  rewrite process_message_handlers, (process_message_try_dispatch _ _ _ _ Hn).
  replace (10 <? n) with false by (symmetry; apply Z.ltb_ge; lia).
  cbn [trace snd]. rewrite send_calls_app.
  change (snd ?x) with (trace x). rewrite valid_message_never_sends.
  by destruct (handled_quiet (outcome (process_valid_message w m sqs (SQS_QUEUE_URL w)
            (ReceiptHandle m) ORIGINALS_DIR RESIZED_DIR))) as (-> & _).
Qed.

(* ================================================================== *)
(** ** The delivery policy *)
(* ================================================================== *)

(** C1. The quarantine test is [receive_count > 10]. With a receive
    count of at most 10 the [try] body of [process_message] is the call of
    [process_valid_message] and no dead-letter send is made; with a count
    of at least 11 it is the dead-letter forward followed by the delete,
    the forward is made with the body, and nothing of normal processing
    (fetch, persist) happens. The boundary lies between 10 and 11. *)
Theorem quarantine_threshold (w : World) (sqs_client : SqsClient) (m : Message) (n : Z) :
  receive_count m = Returned n ->
  (n <= 10 ->
     process_message_try w sqs_client m =
       process_valid_message w m sqs_client (SQS_QUEUE_URL w) (ReceiptHandle m)
         ORIGINALS_DIR RESIZED_DIR
     /\ send_calls (trace (process_message w sqs_client m)) = [])
  /\ (11 <= n ->
     process_message_try w sqs_client m =
       (send_to_dead_letter_queue w sqs_client (Body m);;
        call (DeleteMessage (SQS_QUEUE_URL w) (ReceiptHandle m))
          (delete_message sqs_client (SQS_QUEUE_URL w) (ReceiptHandle m)))
     /\ trace (process_message w sqs_client m) =
          quarantine_events w sqs_client (ReceiptHandle m) (Body m)
     /\ send_calls (trace (process_message w sqs_client m)) =
          [(DEAD_LETTER_QUEUE_URL w, Body m)]
     /\ fetch_calls (trace (process_message w sqs_client m)) = []
     /\ persist_calls (trace (process_message w sqs_client m)) = []).
Proof.
  intros Hn. pose proof (process_message_try_dispatch w sqs_client m n Hn) as Hd.
  split; intros Hle.
  - replace (10 <? n) with false in Hd by (symmetry; apply Z.ltb_ge; lia).
    split; [exact Hd|]. by apply (normal_run_never_sends w sqs_client m n).
  - replace (10 <? n) with true in Hd by (symmetry; apply Z.ltb_lt; lia).
    split; [exact Hd|].
    rewrite (quarantine_run w sqs_client m n Hn) by lia.
    destruct (quarantine_events_calls w sqs_client (ReceiptHandle m) (Body m))
      as (Hs & _ & Hf & Hp).
    done.
Qed.

Lemma quarantine_threshold_witness :
  (receive_count (Scenario.message "10" Scenario.image_123) = Returned 10
   /\ send_calls (trace (process_message Scenario.world Scenario.sqs
                           (Scenario.message "10" Scenario.image_123))) = [])
  /\ (receive_count (Scenario.message "11" Scenario.image_123) = Returned 11
      /\ send_calls (trace (process_message Scenario.world Scenario.sqs
                              (Scenario.message "11" Scenario.image_123)))
         = [(Some "https://sqs/dead", Scenario.image_123)]).
Proof.
  split; (split; [reflexivity|]).
  - apply (quarantine_threshold Scenario.world Scenario.sqs
             (Scenario.message "10" Scenario.image_123) 10); [reflexivity | lia].
  - apply (quarantine_threshold Scenario.world Scenario.sqs
             (Scenario.message "11" Scenario.image_123) 11); [reflexivity | lia].
Defined.

(** C2, as the code has it. On the quarantine path the delete is made only
    after the dead-letter send has returned. When the send raises, no
    delete call is made: the trace ends with the failed send and what the
    handlers log, and [process_message] returns unless the exception is
    outside [Exception]. When the send returns, the delete call with the
    message's receipt handle is made. *)
Theorem quarantine_deletes_only_after_send
    (w : World) (sqs_client : SqsClient) (m : Message) (n : Z) :
  receive_count m = Returned n ->
  10 < n ->
  let sent := send_message sqs_client (DEAD_LETTER_QUEUE_URL w) (Body m) in
  let run := process_message w sqs_client m in
  (forall e, sent = Raised e ->
     trace run =
       [Log ERROR MovingToDeadLetterQueue;
        SendMessage (DEAD_LETTER_QUEUE_URL w) (Body m) (Raised e)] ++ handled (Raised e)
     /\ delete_calls (trace run) = []
     /\ outcome run = after_handlers (Raised e))
  /\ (sent = Returned tt ->
     delete_calls (trace run) = [(SQS_QUEUE_URL w, ReceiptHandle m)]).
Proof.
  intros Hn Hlt sent run.
  pose proof (quarantine_run w sqs_client m n Hn Hlt) as Ht.
  destruct (quarantine_events_calls w sqs_client (ReceiptHandle m) (Body m))
    as (_ & Hd & _).
  fold run in Ht. rewrite <- Ht in Hd. fold sent in Hd.
  split.
  - intros e He. rewrite He in Hd. split; [|split; [exact Hd|]].
    + rewrite Ht. unfold quarantine_events. fold sent. rewrite He. reflexivity.
    + unfold run. rewrite process_message_handlers, (process_message_try_dispatch _ _ _ _ Hn).
      replace (10 <? n) with true by (symmetry; apply Z.ltb_lt; lia).
      unfold_worker. fold sent. rewrite He. reflexivity.
  - intros Hs. rewrite Hs in Hd. exact Hd.
Qed.

Lemma quarantine_deletes_only_after_send_witness :
  receive_count (Scenario.message "11" Scenario.image_123) = Returned 11
  /\ 10 < 11
  /\ delete_calls (trace (process_message Scenario.world Scenario.sqs_send_fails
                            (Scenario.message "11" Scenario.image_123))) = []
  /\ delete_calls (trace (process_message Scenario.world Scenario.sqs
                            (Scenario.message "11" Scenario.image_123)))
     = [(Some "https://sqs/main", "dummy_receipt_handle")].
Proof.
  split; [reflexivity|]. split; [lia|]. split.
  - apply (proj1 (quarantine_deletes_only_after_send Scenario.world Scenario.sqs_send_fails
                    (Scenario.message "11" Scenario.image_123) 11 eq_refl ltac:(lia))
             Scenario.ClientError eq_refl).
  - apply (proj2 (quarantine_deletes_only_after_send Scenario.world Scenario.sqs
                    (Scenario.message "11" Scenario.image_123) 11 eq_refl ltac:(lia))
             eq_refl).
Defined.

(** C2 as the spec words it fails: with a dead-letter queue that rejects
    the send, a message delivered for the 11th time is not deleted. *)
Lemma quarantine_always_deletes_counterexample :
  ~ (forall (w : World) (sqs_client : SqsClient) (m : Message) (n : Z) (e : Exn),
       receive_count m = Returned n ->
       10 < n ->
       send_message sqs_client (DEAD_LETTER_QUEUE_URL w) (Body m) = Raised e ->
       In (SQS_QUEUE_URL w, ReceiptHandle m)
          (delete_calls (trace (process_message w sqs_client m)))).
Proof.
  intros H.
  specialize (H Scenario.world Scenario.sqs_send_fails
                (Scenario.message "11" Scenario.image_123) 11 Scenario.ClientError
                eq_refl ltac:(lia) eq_refl).
  vm_compute in H. exact H.
Qed.

(** C3. A message over the limit (11 is the first such count) whose
    dead-letter send succeeds: the [try] body is the forward followed by the
    delete, with no decoding of the body in it; the trace is the log line,
    one send to the dead-letter queue carrying the body as received, then
    one delete with the message's receipt handle (and a log line if that
    delete raises); no fetch and no persist call is made. *)
Theorem quarantine_sends_then_deletes
    (w : World) (sqs_client : SqsClient) (m : Message) (n : Z) :
  receive_count m = Returned n ->
  10 < n ->
  send_message sqs_client (DEAD_LETTER_QUEUE_URL w) (Body m) = Returned tt ->
  let t := trace (process_message w sqs_client m) in
  let deleted := delete_message sqs_client (SQS_QUEUE_URL w) (ReceiptHandle m) in
  process_message_try w sqs_client m =
    (send_to_dead_letter_queue w sqs_client (Body m);;
     call (DeleteMessage (SQS_QUEUE_URL w) (ReceiptHandle m)) deleted)
  /\ t = [Log ERROR MovingToDeadLetterQueue;
          SendMessage (DEAD_LETTER_QUEUE_URL w) (Body m) (Returned tt);
          DeleteMessage (SQS_QUEUE_URL w) (ReceiptHandle m) deleted]
         ++ handled deleted
  /\ send_calls t = [(DEAD_LETTER_QUEUE_URL w, Body m)]
  /\ delete_calls t = [(SQS_QUEUE_URL w, ReceiptHandle m)]
  /\ fetch_calls t = []
  /\ persist_calls t = [].
Proof.
  intros Hn Hlt Hs t deleted.
  pose proof (quarantine_run w sqs_client m n Hn Hlt) as Ht. fold t in Ht.
  destruct (quarantine_events_calls w sqs_client (ReceiptHandle m) (Body m))
    as (Hsend & Hdel & Hf & Hp).
  rewrite <- Ht, ?Hs in *.
  split; [|split; [|done]].
  - rewrite (process_message_try_dispatch _ _ _ _ Hn).
    by replace (10 <? n) with true by (symmetry; apply Z.ltb_lt; lia).
  - rewrite Ht. unfold quarantine_events. rewrite Hs. reflexivity.
Qed.

Lemma quarantine_sends_then_deletes_witness :
  receive_count (Scenario.message "11" Scenario.image_123) = Returned 11
  /\ 10 < 11
  /\ send_message Scenario.sqs (DEAD_LETTER_QUEUE_URL Scenario.world) Scenario.image_123
     = Returned tt
  /\ trace (process_message Scenario.world Scenario.sqs
              (Scenario.message "11" Scenario.image_123))
     = [Log ERROR MovingToDeadLetterQueue;
        SendMessage (Some "https://sqs/dead") Scenario.image_123 (Returned tt);
        DeleteMessage (Some "https://sqs/main") "dummy_receipt_handle" (Returned tt)].
Proof.
  split; [reflexivity|]. split; [lia|]. split; [reflexivity|].
  apply (quarantine_sends_then_deletes Scenario.world Scenario.sqs
           (Scenario.message "11" Scenario.image_123) 11 eq_refl ltac:(lia) eq_refl).
Defined.

(** C9, as the code has it. The receive count is tested before the body is
    decoded. For a message over the limit the whole trace is
    [quarantine_events], a function of the receipt handle, the raw body and
    the collaborators' answers in which [json.loads] does not occur: the
    forward is made with the body as it came, the delete follows it exactly
    when the send returns, and nothing is fetched or persisted. This holds
    for every body, so also when it is not JSON or lacks the required
    fields. *)
Theorem quarantine_ignores_body
    (w : World) (sqs_client : SqsClient) (m : Message) (n : Z) :
  receive_count m = Returned n ->
  10 < n ->
  let t := trace (process_message w sqs_client m) in
  t = quarantine_events w sqs_client (ReceiptHandle m) (Body m)
  /\ send_calls t = [(DEAD_LETTER_QUEUE_URL w, Body m)]
  /\ delete_calls t =
       match send_message sqs_client (DEAD_LETTER_QUEUE_URL w) (Body m) with
       | Returned _ => [(SQS_QUEUE_URL w, ReceiptHandle m)]
       | Raised _ => []
       end
  /\ fetch_calls t = []
  /\ persist_calls t = [].
Proof.
  intros Hn Hlt t. unfold t.
  rewrite (quarantine_run w sqs_client m n Hn Hlt).
  split; [reflexivity|]. apply quarantine_events_calls.
Qed.

Lemma quarantine_ignores_body_witness :
  let m := Scenario.message "11" Scenario.not_json in
  (exists e, Json.loads 990 Scenario.not_json = Raised e)
  /\ receive_count m = Returned 11
  /\ 10 < 11
  /\ send_calls (trace (process_message Scenario.world Scenario.sqs m))
     = [(Some "https://sqs/dead", Scenario.not_json)]
  /\ delete_calls (trace (process_message Scenario.world Scenario.sqs m))
     = [(Some "https://sqs/main", "dummy_receipt_handle")]
  /\ send_calls (trace (process_message Scenario.world Scenario.sqs_send_fails m))
     = [(Some "https://sqs/dead", Scenario.not_json)]
  /\ delete_calls (trace (process_message Scenario.world Scenario.sqs_send_fails m)) = [].
Proof.
  intros m.
  split; [eexists; vm_compute; reflexivity|].
  split; [reflexivity|]. split; [lia|].
  pose proof (quarantine_ignores_body Scenario.world Scenario.sqs m 11 eq_refl ltac:(lia))
    as (_ & Hs & Hd & _).
  pose proof (quarantine_ignores_body Scenario.world Scenario.sqs_send_fails m 11
                eq_refl ltac:(lia)) as (_ & Hs' & Hd' & _).
  split; [exact Hs|]. split; [exact Hd|]. split; [exact Hs' | exact Hd'].
Defined.

(** C9 as the spec words it fails: a message over the limit whose forward
    to the dead-letter queue raises is not deleted, whatever its body. *)
Lemma quarantine_forward_and_delete_counterexample :
  ~ (forall (w : World) (sqs_client : SqsClient) (m : Message) (n : Z),
       receive_count m = Returned n ->
       10 < n ->
       send_calls (trace (process_message w sqs_client m))
       = [(DEAD_LETTER_QUEUE_URL w, Body m)]
       /\ delete_calls (trace (process_message w sqs_client m))
          = [(SQS_QUEUE_URL w, ReceiptHandle m)]).
Proof.
  intros H.
  specialize (H Scenario.world Scenario.sqs_send_fails
                (Scenario.message "11" Scenario.not_json) 11 eq_refl ltac:(lia)).
  destruct H as [_ H]. vm_compute in H. discriminate H.
Qed.

(* ================================================================== *)
(** ** The message interpreter *)
(* ================================================================== *)

(** A decoded body without a true [id] or [image_url] is logged and left. *)
Lemma valid_message_incomplete w m sqs q rh od rd d :
  Json.loads (recursion_limit w) (Body m) = Returned (VDict d) ->
  truthy (dict_get d "id") = false \/ truthy (dict_get d "image_url") = false ->
  process_valid_message w m sqs q rh od rd = (Returned tt, [Log ERROR InvalidFormat]).
Proof.
  intros Hb Hf. unfold process_valid_message.
  rewrite Hb, !bind_lift. cbn [Py.get]. rewrite !bind_lift.
  destruct Hf as [-> | ->]; cbn; [reflexivity|].
  by rewrite orb_true_r.
Qed.

(** C5, as the code has it. A message within the limit (receive count at
    most 10) whose body decodes, and in which [id] or [image_url] is
    missing, empty or otherwise false: [process_message] logs the error and
    returns; that log line is the whole trace, so no delete and no
    dead-letter send is made. When the body is an object the line is the
    format error, and [process_valid_message] alone does the same whatever
    it is called with; when it is no object it has no fields at all,
    [body.get] raises and the generic handler logs that. *)
Theorem incomplete_work_item_is_dropped
    (w : World) (sqs_client : SqsClient) (m : Message) (n : Z) (body : Value) :
  receive_count m = Returned n ->
  n <= 10 ->
  Json.loads (recursion_limit w) (Body m) = Returned body ->
  (forall d, body = VDict d ->
     truthy (dict_get d "id") = false \/ truthy (dict_get d "image_url") = false) ->
  (process_message w sqs_client m = (Returned tt, [Log ERROR InvalidFormat])
   \/ exists e : Exn,
        Py.get body "id" = Raised e
        /\ process_message w sqs_client m
           = (Returned tt, [Log EXCEPTION (ErrorProcessing e)]))
  /\ delete_calls (trace (process_message w sqs_client m)) = []
  /\ send_calls (trace (process_message w sqs_client m)) = []
  /\ (forall d, body = VDict d ->
       process_message w sqs_client m = (Returned tt, [Log ERROR InvalidFormat])
       /\ forall (sqs_queue_url : option string)
                 (receipt_handle originals_dir resized_dir : string),
            process_valid_message w m sqs_client sqs_queue_url receipt_handle
              originals_dir resized_dir
            = (Returned tt, [Log ERROR InvalidFormat])).
Proof.
  intros Hn Hle Hb Hf.
  assert (forall d, body = VDict d ->
            process_message w sqs_client m = (Returned tt, [Log ERROR InvalidFormat]))
    as Hobject.
  { intros d ->.
    rewrite process_message_handlers, (process_message_try_dispatch _ _ _ _ Hn).
    replace (10 <? n) with false by (symmetry; apply Z.ltb_ge; lia).
    by rewrite (valid_message_incomplete _ _ _ _ _ _ _ d Hb (Hf d eq_refl)). }
  assert ((forall d, body <> VDict d) ->
          exists e : Exn,
            Py.get body "id" = Raised e
            /\ process_message w sqs_client m
               = (Returned tt, [Log EXCEPTION (ErrorProcessing e)])) as Hother.
  { intros Hd.
    rewrite process_message_handlers, (process_message_try_dispatch _ _ _ _ Hn).
    replace (10 <? n) with false by (symmetry; apply Z.ltb_ge; lia).
    unfold process_valid_message. rewrite Hb, bind_lift.
    destruct body; try (by destruct (Hd d)); cbn; eauto. }
  assert (process_message w sqs_client m = (Returned tt, [Log ERROR InvalidFormat])
          \/ exists e : Exn,
               Py.get body "id" = Raised e
               /\ process_message w sqs_client m
                  = (Returned tt, [Log EXCEPTION (ErrorProcessing e)])) as Hrun.
  { destruct body; try (right; apply Hother; discriminate). left. by eapply Hobject. }
  split; [exact Hrun|].
  split; [destruct Hrun as [-> | (e & _ & ->)]; reflexivity|].
  split; [destruct Hrun as [-> | (e & _ & ->)]; reflexivity|].
  intros d ->. split; [by eapply Hobject|].
  intros. by apply (valid_message_incomplete _ _ _ _ _ _ _ d Hb (Hf d eq_refl)).
Qed.

Lemma incomplete_work_item_is_dropped_witness :
  receive_count (Scenario.message "10" Scenario.no_fields) = Returned 10
  /\ 10 <= 10
  /\ Json.loads 990 Scenario.no_fields = Returned (VDict [("invalid", VStr "message")])
  /\ truthy (dict_get [("invalid", VStr "message")] "id") = false
  /\ process_message Scenario.world Scenario.sqs (Scenario.message "10" Scenario.no_fields)
     = (Returned tt, [Log ERROR InvalidFormat])
  /\ delete_calls (trace (process_message Scenario.world Scenario.sqs
                            (Scenario.message "10" Cases.a_list))) = [].
Proof.
  split; [reflexivity|]. split; [lia|]. split; [vm_compute; reflexivity|].
  split; [reflexivity|]. split.
  - destruct (incomplete_work_item_is_dropped Scenario.world Scenario.sqs
                (Scenario.message "10" Scenario.no_fields) 10
                (VDict [("invalid", VStr "message")]))
      as (_ & _ & _ & Hobject);
      [reflexivity | lia | vm_compute; reflexivity
       | intros d Hd; injection Hd as <-; left; reflexivity |].
    exact (proj1 (Hobject _ eq_refl)).
  - destruct (incomplete_work_item_is_dropped Scenario.world Scenario.sqs
                (Scenario.message "10" Cases.a_list) 10 (VList [VInt 1; VInt 2]))
      as (_ & Hdelete & _);
      [reflexivity | lia | vm_compute; reflexivity | discriminate |].
    exact Hdelete.
Defined.

(** C5 as the spec words it fails: on its 11th delivery the message without
    fields is forwarded to the dead-letter queue and deleted. *)
Lemma incomplete_work_item_never_deleted_counterexample :
  ~ (forall (w : World) (sqs_client : SqsClient) (m : Message)
            (d : list (string * Value)),
       Json.loads (recursion_limit w) (Body m) = Returned (VDict d) ->
       truthy (dict_get d "id") = false \/ truthy (dict_get d "image_url") = false ->
       delete_calls (trace (process_message w sqs_client m)) = []
       /\ send_calls (trace (process_message w sqs_client m)) = []).
Proof.
  intros H.
  specialize (H Scenario.world Scenario.sqs (Scenario.message "11" Scenario.no_fields)
                [("invalid", VStr "message")]
                ltac:(vm_compute; reflexivity) ltac:(left; reflexivity)).
  destruct H as [H _]. vm_compute in H. discriminate H.
Qed.

(** C7, as the code has it. A message within the limit (receive count at
    most 10) whose body [json.loads] does not decode:
    [process_valid_message] raises the decoder's error before it calls
    anything; [process_message] logs it and returns; that log line is the
    whole trace, so no delete and no dead-letter send is made, and no
    exception leaves the handler. A body that is not JSON is a [ValueError]
    and is logged as a parse failure; a body nested too deeply for the
    interpreter is a [RecursionError] and is logged by the generic handler.
    A turn of the consumption loop that received this message ends
    normally. *)
Theorem undecodable_body_is_logged
    (w : World) (sqs_client : SqsClient) (m : Message) (n : Z) (e : Exn) :
  receive_count m = Returned n ->
  n <= 10 ->
  Json.loads (recursion_limit w) (Body m) = Raised e ->
  process_message w sqs_client m =
    (Returned tt,
     [if isinstance_ValueError e then Log ERROR (UnableToParseBody e)
      else Log EXCEPTION (ErrorProcessing e)])
  /\ (isinstance_ValueError e = true
      \/ (isinstance_ValueError e = false /\ exn_class e = "RecursionError"))
  /\ delete_calls (trace (process_message w sqs_client m)) = []
  /\ send_calls (trace (process_message w sqs_client m)) = []
  /\ (forall (sqs_queue_url : option string) (receipt_handle originals_dir resized_dir : string),
       process_valid_message w m sqs_client sqs_queue_url receipt_handle
         originals_dir resized_dir
       = (Raised e, []))
  /\ (receive_message sqs_client (SQS_QUEUE_URL w) 1 10 20 = Returned (Some [m]) ->
      outcome (receive_messages_iteration w sqs_client) = Returned tt).
Proof.
  intros Hn Hle Hb.
  destruct (JsonFacts.decoder_exception_kinds _ (JsonFacts.loads_raises _ _ _ Hb))
    as [Hexn Hkind].
  assert (process_message w sqs_client m
          = (Returned tt,
             [if isinstance_ValueError e then Log ERROR (UnableToParseBody e)
              else Log EXCEPTION (ErrorProcessing e)])) as Hrun.
  { rewrite process_message_handlers, (process_message_try_dispatch _ _ _ _ Hn).
    replace (10 <? n) with false by (symmetry; apply Z.ltb_ge; lia).
    unfold process_valid_message. rewrite Hb, bind_lift_raised.
    unfold outcome, trace, after_handlers, handled. cbn [fst snd app].
    rewrite Hexn. by destruct (isinstance_ValueError e). }
  rewrite Hrun. split; [reflexivity|]. split; [exact Hkind|].
  split; [by destruct (isinstance_ValueError e)|].
  split; [by destruct (isinstance_ValueError e)|].
  split.
  - intros. unfold process_valid_message. by rewrite Hb, bind_lift_raised.
  - intros Hr. unfold receive_messages_iteration, call, for_each.
    rewrite Hr. cbn. rewrite Hrun. reflexivity.
Qed.

Lemma undecodable_body_is_logged_witness :
  (receive_count (Scenario.message "10" Scenario.not_json) = Returned 10
   /\ 10 <= 10
   /\ Json.loads 990 Scenario.not_json = Raised Json.expecting_value
   /\ process_message Scenario.world Scenario.sqs (Scenario.message "10" Scenario.not_json)
      = (Returned tt, [Log ERROR (UnableToParseBody Json.expecting_value)])
   /\ outcome (receive_messages_iteration Scenario.world
                 (Scenario.sqs_delivering (Scenario.message "10" Scenario.not_json)))
      = Returned tt)
  /\ (Json.loads 990 Cases.too_deep = Raised Json.array_too_deep
      /\ process_message Scenario.world Scenario.sqs (Scenario.message "10" Cases.too_deep)
         = (Returned tt, [Log EXCEPTION (ErrorProcessing Json.array_too_deep)])).
Proof.
  split.
  - split; [reflexivity|]. split; [lia|]. split; [vm_compute; reflexivity|].
    split.
    + apply (undecodable_body_is_logged Scenario.world Scenario.sqs
               (Scenario.message "10" Scenario.not_json) 10 Json.expecting_value);
        [reflexivity | lia | vm_compute; reflexivity].
    + apply (undecodable_body_is_logged Scenario.world
               (Scenario.sqs_delivering (Scenario.message "10" Scenario.not_json))
               (Scenario.message "10" Scenario.not_json) 10 Json.expecting_value);
        [reflexivity | lia | vm_compute; reflexivity | reflexivity].
  - split; [vm_compute; reflexivity|].
    apply (undecodable_body_is_logged Scenario.world Scenario.sqs
             (Scenario.message "10" Cases.too_deep) 10 Json.array_too_deep);
      [reflexivity | lia | vm_compute; reflexivity].
Defined.

(** C7 as the spec words it fails: on its 11th delivery the message that is
    not JSON is forwarded to the dead-letter queue and deleted, and no
    failure to decode it is logged. *)
Lemma undecodable_body_never_deleted_counterexample :
  ~ (forall (w : World) (sqs_client : SqsClient) (m : Message) (e : Exn),
       Json.loads (recursion_limit w) (Body m) = Raised e ->
       (In (Log ERROR (UnableToParseBody e)) (trace (process_message w sqs_client m))
        \/ In (Log EXCEPTION (ErrorProcessing e)) (trace (process_message w sqs_client m)))
       /\ delete_calls (trace (process_message w sqs_client m)) = []
       /\ send_calls (trace (process_message w sqs_client m)) = []
       /\ outcome (process_message w sqs_client m) = Returned tt).
Proof.
  intros H.
  specialize (H Scenario.world Scenario.sqs (Scenario.message "11" Scenario.not_json)
                Json.expecting_value ltac:(vm_compute; reflexivity)).
  destruct H as (_ & H & _). vm_compute in H. discriminate H.
Qed.

(* ================================================================== *)
(** ** Extension inference *)
(* ================================================================== *)

Module OsPathFacts.
Import OsPath.











End OsPathFacts.

(** Where [splitext] finds a suffix. *)
Module SplitextFacts.
Import OsPath.






















End SplitextFacts.




(* ================================================================== *)
(** ** Fetching and persisting *)
(* ================================================================== *)

(** C6. Whenever the fetch made for a message comes back with a status
    outside 200-299, the run of [process_message] is the fetch followed by
    the download error in the log: no delete call and no persist call
    (neither for the original nor for the resized image) is made, and the
    handler returns. *)
Theorem failed_fetch_leaves_message
    (w : World) (sqs_client : SqsClient) (m : Message) (url : Value) (resp : Response) :
  In (RequestsGet url (Returned resp)) (trace (process_message w sqs_client m)) ->
  ~ (200 <= status_code resp <= 299) ->
  process_message w sqs_client m =
    (Returned tt, [RequestsGet url (Returned resp); Log ERROR (FailedToDownload url)])
  /\ delete_calls (trace (process_message w sqs_client m)) = []
  /\ persist_calls (trace (process_message w sqs_client m)) = [].
Proof.
  intros Hin Hst.
  run_worker; in_cases; try done; lia.
Qed.

Lemma failed_fetch_leaves_message_witness :
  let run := process_message (Scenario.with_status 404) Scenario.sqs
               (Scenario.message "1" Scenario.image_123) in
  let url := VStr "http://example.com/image.jpg" in
  let resp := {| status_code := 404; content := [] |} in
  In (RequestsGet url (Returned resp)) (trace run)
  /\ ~ (200 <= status_code resp <= 299)
  /\ delete_calls (trace run) = []
  /\ persist_calls (trace run) = [].
Proof.
  intros run url resp.
  assert (In (RequestsGet url (Returned resp)) (trace run)) as Hin
    by (vm_compute; left; reflexivity).
  assert (~ (200 <= status_code resp <= 299)) as Hst by (cbn; lia).
  split; [exact Hin|]. split; [exact Hst|].
  apply (failed_fetch_leaves_message (Scenario.with_status 404) Scenario.sqs
           (Scenario.message "1" Scenario.image_123) url resp Hin Hst).
Defined.

(** Any call of the resize step sits behind the completed write of the
    original, in a run whose body decoded to an object and whose URL has an
    extension to infer. *)
Lemma original_first_by_cases w sqs m ev :
  In ev (trace (process_message w sqs m)) ->
  is_resize ev = true ->
  match Json.loads (recursion_limit w) (Body m) with
  | Returned (VDict d) =>
      match get_image_ext (dict_get d "image_url") with
      | Returned ext =>
          let path := OsPath.join ORIGINALS_DIR (str w (dict_get d "id") +:+ ext) in
          exists resp rest,
            trace (process_message w sqs m) =
              [RequestsGet (dict_get d "image_url") (Returned resp);
               Open path "wb" (Returned tt);
               Write path (content resp) (Returned tt);
               Close path (Returned tt)] ++ rest
            /\ In ev rest
            /\ (resize_failed ev = true ->
                delete_calls (trace (process_message w sqs m)) = [])
      | Raised _ => False
      end
  | _ => False
  end.
Proof.
  intros Hin Hres.
  run_worker; in_cases; try discriminate.
  all: repeat match goal with u : unit |- _ => destruct u end.
  all: rewrite_outcomes.
  all: eexists _, _; split; [reflexivity|]; split; [cbn; tauto|]; done.
Qed.

(** C10. Every call of [resize_and_save_image] comes after the original
    has been written: a trace that holds such a call begins with the fetch
    and the opened, written and closed original, at the path that
    [os.path.join] makes of [ORIGINALS_DIR] and [<id><ext>], and the call
    lies behind them. If that call raised, the trace holds no delete call:
    the original is on disk and the message stays in the queue. *)
Theorem original_written_before_resized
    (w : World) (sqs_client : SqsClient) (m : Message) (ev : Event) :
  In ev (trace (process_message w sqs_client m)) ->
  is_resize ev = true ->
  exists (d : list (string * Value)) (ext : string) (resp : Response) (rest : list Event),
    Json.loads (recursion_limit w) (Body m) = Returned (VDict d)
    /\ get_image_ext (dict_get d "image_url") = Returned ext
    /\ trace (process_message w sqs_client m) =
         [RequestsGet (dict_get d "image_url") (Returned resp);
          Open (OsPath.join ORIGINALS_DIR (str w (dict_get d "id") +:+ ext)) "wb" (Returned tt);
          Write (OsPath.join ORIGINALS_DIR (str w (dict_get d "id") +:+ ext))
            (content resp) (Returned tt);
          Close (OsPath.join ORIGINALS_DIR (str w (dict_get d "id") +:+ ext)) (Returned tt)]
         ++ rest
    /\ In ev rest
    /\ (resize_failed ev = true ->
        delete_calls (trace (process_message w sqs_client m)) = []).
Proof.
  intros Hin Hres.
  pose proof (original_first_by_cases w sqs_client m ev Hin Hres) as H.
  destruct (Json.loads (recursion_limit w) (Body m)) as [[| | | | | |d]|e] eqn:Hb; try destruct H.
  destruct (get_image_ext (dict_get d "image_url")) as [ext|e] eqn:Hext; [|destruct H].
  cbn zeta in H. destruct H as (resp & rest & Ht & Hev & Hdel).
  exists d, ext, resp, rest. repeat split; assumption.
Qed.

Lemma original_written_before_resized_witness :
  let run := process_message Scenario.undecodable Scenario.sqs
               (Scenario.message "1" Scenario.image_123) in
  let ev := ImageOpen Scenario.png (Raised Scenario.UnidentifiedImageError) in
  In ev (trace run)
  /\ is_resize ev = true
  /\ resize_failed ev = true
  /\ In (Write "originals/123.jpg" Scenario.png (Returned tt)) (trace run)
  /\ delete_calls (trace run) = [].
Proof.
  intros run ev.
  assert (In ev (trace run)) as Hin by (vm_compute; tauto).
  split; [exact Hin|]. split; [reflexivity|]. split; [reflexivity|].
  destruct (original_written_before_resized Scenario.undecodable Scenario.sqs
              (Scenario.message "1" Scenario.image_123) ev Hin eq_refl)
    as (d & ext & resp & rest & _ & _ & _ & _ & Hdel).
  split; [vm_compute; tauto | exact (Hdel eq_refl)].
Defined.

(** Where the artifacts go on full success: the paths are what
    [os.path.join] makes of the directory and [<id><ext>], which is
    [<dir>/<id><ext>] as long as the name does not begin with a slash. *)
Lemma full_success w sqs m n d ext resp im im' :
  receive_count m = Returned n ->
  n <= 10 ->
  Json.loads (recursion_limit w) (Body m) = Returned (VDict d) ->
  truthy (dict_get d "id") = true ->
  truthy (dict_get d "image_url") = true ->
  requests_get w (dict_get d "image_url") = Returned resp ->
  status_code resp = 200 ->
  get_image_ext (dict_get d "image_url") = Returned ext ->
  let name := str w (dict_get d "id") +:+ ext in
  let original := OsPath.join ORIGINALS_DIR name in
  let resized := OsPath.join RESIZED_DIR name in
  builtin_open w original "wb" = Returned tt ->
  file_write w original (content resp) = Returned tt ->
  file_close w original = Returned tt ->
  Image_open w (content resp) = Returned im ->
  Image_thumbnail w im (256, 256) LANCZOS = Returned im' ->
  Image_save w im' resized = Returned tt ->
  let t := trace (process_message w sqs m) in
  delete_calls t = [(SQS_QUEUE_URL w, ReceiptHandle m)]
  /\ artifacts t = [original; resized]
  /\ send_calls t = []
  /\ (OsPath.startswith_sep name = false ->
      original = "originals/" +:+ name /\ resized = "resized/" +:+ name).
Proof.
  intros Hn Hle Hb Hid Hurl Hget Hst Hext name original resized
    Hopen Hwrite Hclose Himg Hthumb Hsave t.
  split; [|split; [|split]].
  4: { intros Hrel. unfold original, resized, OsPath.join. by rewrite Hrel. }
  all: unfold t; rewrite process_message_handlers, (process_message_try_dispatch _ _ _ _ Hn).
  all: replace (10 <? n) with false by (symmetry; apply Z.ltb_ge; lia).
  all: unfold process_valid_message; rewrite Hb, !bind_lift; cbn [Py.get].
  all: rewrite !bind_lift.
  all: rewrite Hid, Hurl, Hext; cbn [negb orb]; unfold_worker.
  all: rewrite Hget, Hst; cbn [Z.eqb Pos.eqb]; fold name; fold original; fold resized.
  all: rewrite Hopen, Hwrite, Hclose, Himg, Hthumb, Hsave.
  all: destruct (delete_message sqs (SQS_QUEUE_URL w) (ReceiptHandle m)) as [[]|e]; cbn.
  all: unfold handled; try destruct (isinstance_ValueError e);
    try destruct (isinstance_Exception e); reflexivity.
Qed.

(** The end-to-end scenario of the spec: message 123 on its first delivery
    leaves [originals/123.jpg] and [resized/123.jpg] and is deleted once. *)
Example full_success_image_123 :
  let t := trace (process_message Scenario.world Scenario.sqs
                    (Scenario.message "1" Scenario.image_123)) in
  delete_calls t = [(Some "https://sqs/main", "dummy_receipt_handle")]
  /\ artifacts t = ["originals/123.jpg"; "resized/123.jpg"].
Proof.
  pose proof (full_success Scenario.world Scenario.sqs
                (Scenario.message "1" Scenario.image_123) 1
                [("id", VStr "123"); ("image_url", VStr "http://example.com/image.jpg")]
                ".jpg" {| status_code := 200; content := Scenario.png |}
                {| im_size := (1024, 512); im_data := Scenario.png |}
                {| im_size := (256, 128); im_data := Scenario.png |}
                eq_refl ltac:(lia) ltac:(vm_compute; reflexivity) eq_refl eq_refl
                eq_refl eq_refl eq_refl eq_refl eq_refl eq_refl eq_refl eq_refl eq_refl)
    as (Hd & Ha & _ & _).
  split; [exact Hd | exact Ha].
Qed.

(** C4 at an identifier that begins with a slash. Every step succeeds and
    the message is deleted once, with its receipt handle; but
    [os.path.join] drops the directory in front of an absolute name, so
    both artifacts go to [/tmp/x.png], outside [originals] and [resized],
    and the resized image overwrites the original. *)
Theorem absolute_id_escapes_directories :
  let run := process_message Scenario.world Scenario.sqs
               (Scenario.message "1" Scenario.absolute_id) in
  Json.loads 990 Scenario.absolute_id
    = Returned (VDict [("id", VStr "/tmp/x");
                       ("image_url", VStr "http://example.com/image.png")])
  /\ outcome run = Returned tt
  /\ delete_calls (trace run) = [(Some "https://sqs/main", "dummy_receipt_handle")]
  /\ artifacts (trace run) = ["/tmp/x.png"; "/tmp/x.png"]
  /\ artifacts (trace run) <> ["originals//tmp/x.png"; "resized//tmp/x.png"].
Proof.
  vm_compute. repeat split; discriminate.
Qed.

(* ================================================================== *)
(** ** Every run takes one of the paths *)
(* ================================================================== *)

(** Whatever [int] raises is a [ValueError]. *)
Lemma int_raises_ValueError s e : Py.int s = Raised e -> isinstance_ValueError e = true.
Proof.
  unfold Py.int. intros H.
  repeat (break_match; simplify_eq); reflexivity.
Qed.

Lemma store_stored w sqs image_id ext data q rh od rd :
  Stored w sqs image_id data q rh
    (OsPath.join od (str w image_id +:+ ext))
    (OsPath.join rd (str w image_id +:+ ext))
    (store w sqs image_id ext data q rh od rd).
Proof.
  unfold store. unfold_worker.
  set (original := OsPath.join od _). set (resized := OsPath.join rd _).
  destruct (builtin_open w original "wb") as [[]|e] eqn:Hopen;
    [|by apply stored_not_opened].
  destruct (file_write w original data) as [[]|ew] eqn:Hwrite;
    destruct (file_close w original) as [[]|ec] eqn:Hclose; cbn;
    try by eapply stored_not_written.
  destruct (Image_open w data) as [im|e] eqn:Himg; cbn;
    [|by apply stored_not_decoded].
  destruct (Image_thumbnail w im (256, 256) LANCZOS) as [im'|e] eqn:Hthumb; cbn;
    [|by apply stored_not_shrunk].
  destruct (Image_save w im' resized) as [[]|e] eqn:Hsave; cbn;
    [|by eapply stored_not_saved].
  by eapply stored_and_deleted.
Qed.

Lemma bind_returned {A B} (a : A) (t : list Event) (f : A -> M B) :
  ((Returned a, t) ≫= f) = (outcome (f a), t ++ trace (f a)).
Proof. unfold mbind, M_bind, outcome, trace. by destruct (f a). Qed.

Lemma process_valid_message_store w m sqs q rh od rd d resp ext :
  Json.loads (recursion_limit w) (Body m) = Returned (VDict d) ->
  truthy (dict_get d "id") = true -> truthy (dict_get d "image_url") = true ->
  requests_get w (dict_get d "image_url") = Returned resp ->
  status_code resp = 200 ->
  get_image_ext (dict_get d "image_url") = Returned ext ->
  process_valid_message w m sqs q rh od rd =
    (outcome (store w sqs (dict_get d "id") ext (content resp) q rh od rd),
     RequestsGet (dict_get d "image_url") (Returned resp)
       :: trace (store w sqs (dict_get d "id") ext (content resp) q rh od rd)).
Proof.
  intros Hbody Hid Hurl Hget Hstatus Hext.
  unfold process_valid_message.
  rewrite Hbody, bind_lift. unfold Py.get. rewrite !bind_lift, Hid, Hurl. cbn [negb orb].
  unfold download_image, call. rewrite Hget. cbn [lift].
  rewrite bind_returned, Hstatus, Hext. cbn [Z.eqb Pos.eqb].
  change (mret (Some (content resp)))
    with ((Returned (Some (content resp)), []) : M (option bytes)).
  unfold outcome at 1, trace at 1. cbn [fst snd].
  rewrite bind_returned, bind_lift. reflexivity.
Qed.

Lemma truthy_both a b :
  negb (truthy a) || negb (truthy b) = false -> truthy a = true /\ truthy b = true.
Proof. destruct (truthy a), (truthy b); cbn; intros; by simplify_eq. Qed.

Lemma truthy_either a b :
  negb (truthy a) || negb (truthy b) = true -> truthy a = false \/ truthy b = false.
Proof. destruct (truthy a), (truthy b); cbn; intros; simplify_eq; auto. Qed.

(** Every run of the [try] body takes one of the paths. *)
Lemma process_message_try_path w sqs m :
  TryPath w sqs m (process_message_try w sqs m).
Proof.
  destruct (receive_count m) as [n|e] eqn:Hn.
  2: { replace (process_message_try w sqs m) with ((Raised e, []) : M unit).
       { by apply try_no_count. }
       unfold process_message_try, receive_count in *.
       destruct (subscript _ _) as [c|e']; [|by simplify_eq].
       by rewrite bind_lift, Hn. }
  rewrite (process_message_try_dispatch _ _ _ _ Hn).
  destruct (Z.ltb_spec 10 n) as [Hlt|Hle].
  { unfold_worker.
    destruct (send_message _ _ _) as [[]|e] eqn:Hsend; cbn.
    - by eapply try_quarantined.
    - by eapply try_not_forwarded. }
  destruct (Json.loads (recursion_limit w) (Body m)) as [body|e] eqn:Hbody.
  2: { unfold process_valid_message. rewrite Hbody. by eapply try_not_decoded. }
  destruct (Py.get body "id") as [image_id|e] eqn:Hid.
  2: { unfold process_valid_message. rewrite Hbody, bind_lift, Hid.
       eapply try_no_object; try done.
       intros d ->. discriminate Hid. }
  destruct body as [| | | | |l|d]; try discriminate Hid.
  cbn in Hid. simplify_eq.
  destruct (negb (truthy (dict_get d "id")) || negb (truthy (dict_get d "image_url")))
    eqn:Hfields.
  { unfold process_valid_message. rewrite Hbody, bind_lift. unfold Py.get.
    rewrite !bind_lift, Hfields.
    eapply try_incomplete; try done. by apply truthy_either. }
  apply truthy_both in Hfields as Hboth. destruct Hboth as [Ht1 Ht2].
  destruct (requests_get w (dict_get d "image_url")) as [resp|e] eqn:Hget.
  2: { unfold process_valid_message. rewrite Hbody, bind_lift. unfold Py.get.
       rewrite !bind_lift, Hfields. unfold download_image, call. rewrite Hget.
       by eapply try_not_fetched. }
  destruct (Z.eq_dec (status_code resp) 200) as [Hok|Hno].
  2: { unfold process_valid_message. rewrite Hbody, bind_lift. unfold Py.get.
       rewrite !bind_lift, Hfields. unfold download_image, call. rewrite Hget.
       rewrite bind_returned.
       replace (status_code resp =? 200) with false by (symmetry; by apply Z.eqb_neq).
       unfold logger, mbind, M_bind, mret, M_ret, outcome, trace. cbn.
       by eapply try_refused. }
  destruct (get_image_ext (dict_get d "image_url")) as [ext|e] eqn:Hext.
  2: { unfold process_valid_message. rewrite Hbody, bind_lift. unfold Py.get.
       rewrite !bind_lift, Hfields. unfold download_image, call. rewrite Hget.
       rewrite bind_returned, Hok, Hext. cbn [Z.eqb Pos.eqb].
       unfold logger, mbind, M_bind, mret, M_ret, lift, outcome, trace. cbn.
       by eapply try_no_extension. }
  rewrite (process_valid_message_store _ _ _ _ _ _ _ _ _ _ Hbody Ht1 Ht2 Hget Hok Hext).
  eapply try_stored; try done.
  pose proof (store_stored w sqs (dict_get d "id") ext (content resp)
                (SQS_QUEUE_URL w) (ReceiptHandle m) ORIGINALS_DIR RESIZED_DIR) as H.
  by destruct (store _ _ _ _ _ _ _ _ _).
Qed.







(** A collaborator gives one answer to one call. *)
Ltac same_answers :=
  repeat match goal with
  | H1 : ?x = Returned _, H2 : ?x = Returned _ |- _ => rewrite H1 in H2; simplify_eq
  | H1 : ?x = Raised _, H2 : ?x = Raised _ |- _ => rewrite H1 in H2; simplify_eq
  | H1 : ?x = Returned _, H2 : ?x = Raised _ |- _ => rewrite H1 in H2; discriminate H2
  end.

Ltac by_paths w sqs m :=
  let Hpath := fresh "Hpath" in
  rewrite ?(process_message_handlers w sqs m) in *;
  pose proof (process_message_try_path w sqs m) as Hpath;
  destruct (process_message_try w sqs m) as [? ?];
  unfold outcome, trace in *; cbn [fst snd] in *;
  inversion Hpath; subst; clear Hpath;
  try match goal with
      | H : Stored _ _ _ _ _ _ _ _ _ |- _ => inversion H; subst; clear H
      end.

(** What the handlers do, by the kind of the exception. *)
Ltac handlers :=
  unfold handled, after_handlers, with_outcome,
    isinstance_ValueError, isinstance_Exception in *;
  repeat break_match; simplify_eq; cbn in *.

Ltac in_trace :=
  repeat match goal with
  | H : In _ (_ ++ _) |- _ => apply in_app_or in H
  | H : In _ (_ :: _) |- _ => destruct H as [H|H]
  | H : In _ [] |- _ => destruct H
  | H : _ \/ _ |- _ => destruct H as [H|H]
  | H : False |- _ => destruct H
  end.

Lemma in_handled ev r : In ev (handled r) -> exists lvl msg, ev = Log lvl msg.
Proof.
  destruct r as [[]|e]; cbn; [done|].
  destruct (isinstance_ValueError e); [|destruct (isinstance_Exception e)]; cbn;
    intros H; in_trace; eauto.
Qed.

Ltac handler_events :=
  repeat match goal with
  | H : In _ (handled _) |- _ => apply in_handled in H as (? & ? & ?)
  end.


(* ================================================================== *)
(** ** The loop *)
(* ================================================================== *)

Lemma process_message_survives w sqs m : survives (process_message w sqs m).
Proof.
  unfold survives. rewrite process_message_handlers. unfold outcome at 1 3. cbn [fst].
  destruct (outcome (process_message_try w sqs m)) as [[]|e]; cbn; [eauto|].
  destruct (isinstance_Exception e) eqn:K; eauto.
Qed.

Lemma bind_outcome {A B} (m : M A) (f : A -> M B) :
  outcome (m ≫= f) =
    match outcome m with
    | Returned a => outcome (f a)
    | Raised e => Raised e
    end.
Proof.
  destruct m as [[a|e] t]; unfold mbind, M_bind, outcome; cbn; [|done].
  by destruct (f a).
Qed.

Lemma bind_trace {A B} (m : M A) (f : A -> M B) :
  trace (m ≫= f) =
    match outcome m with
    | Returned a => trace m ++ trace (f a)
    | Raised e => trace m
    end.
Proof.
  destruct m as [[a|e] t]; unfold mbind, M_bind, outcome, trace; cbn; [|done].
  by destruct (f a).
Qed.

Lemma for_each_survives {A} (l : list A) (f : A -> M unit) :
  (forall x, survives (f x)) -> survives (for_each l f).
Proof.
  intros Hf. induction l as [|x l IH]; cbn [for_each].
  - left. by exists tt.
  - unfold survives. rewrite bind_outcome.
    destruct (Hf x) as [[[] Hx] | (e & Hx & He)]; rewrite Hx; [exact IH|].
    right. by exists e.
Qed.

Lemma for_each_returned {A} (l : list A) (f : A -> M unit) :
  (forall x, In x l -> outcome (f x) = Returned tt) ->
  for_each l f = (Returned tt, concat (map (fun x => trace (f x)) l)).
Proof.
  induction l as [|x l IH]; intros Hf; cbn [for_each map concat]; [done|].
  rewrite IH by (intros; apply Hf; by right).
  pose proof (Hf x (or_introl eq_refl)) as Hx.
  destruct (f x) as [r t]. unfold outcome, trace in *. cbn in *. by subst.
Qed.

Lemma in_for_each {A} (l : list A) (f : A -> M unit) ev :
  In ev (trace (for_each l f)) -> exists x, In x l /\ In ev (trace (f x)).
Proof.
  induction l as [|x l IH]; cbn [for_each]; [by intros []|].
  rewrite bind_trace. intros Hin.
  destruct (outcome (f x)); [apply in_app_or in Hin as [Hin|Hin]|].
  - exists x. split; [by left|done].
  - destruct (IH Hin) as (y & Hy & Hev). exists y. split; [by right|done].
  - exists x. split; [by left|done].
Qed.

(** One turn, by what the poll gave. *)
Lemma iteration_messages w sqs ms :
  receive_message sqs (SQS_QUEUE_URL w) 1 10 20 = Returned (Some ms) ->
  receive_messages_iteration w sqs =
    (outcome (for_each ms (process_message w sqs)),
     ReceiveMessage (SQS_QUEUE_URL w) 1 10 20 (Returned (Some ms))
       :: trace (for_each ms (process_message w sqs))
       ++ match outcome (for_each ms (process_message w sqs)) with
          | Raised e =>
              if isinstance_Exception e then [Log ERROR (ErrorReceiving e)] else []
          | Returned _ => []
          end).
Proof.
  intros Hpoll. unfold receive_messages_iteration, call. rewrite Hpoll, bind_returned.
  pose proof (for_each_survives ms (process_message w sqs) (process_message_survives w sqs))
    as Hs.
  destruct (for_each ms (process_message w sqs)) as [[[]|e] t].
  - unfold try_except, outcome, trace. cbn. by rewrite app_nil_r.
  - destruct Hs as [[a Ha] | (e' & He' & K)]; [discriminate Ha|].
    unfold outcome in He'. cbn in He'. simplify_eq.
    unfold try_except, outcome, trace. cbn. rewrite K. cbn. by rewrite app_nil_r.
Qed.

Lemma iteration_empty w sqs :
  receive_message sqs (SQS_QUEUE_URL w) 1 10 20 = Returned None ->
  receive_messages_iteration w sqs =
    (Returned tt,
     [ReceiveMessage (SQS_QUEUE_URL w) 1 10 20 (Returned None); Log INFO NoMessagesReceived]).
Proof.
  intros Hpoll. unfold receive_messages_iteration, call. by rewrite Hpoll.
Qed.

Lemma iteration_failed w sqs e :
  receive_message sqs (SQS_QUEUE_URL w) 1 10 20 = Raised e ->
  receive_messages_iteration w sqs =
    (if isinstance_Exception e then Returned tt else Raised e,
     ReceiveMessage (SQS_QUEUE_URL w) 1 10 20 (Raised e)
       :: if isinstance_Exception e then [Log ERROR (ErrorReceiving e)] else []).
Proof.
  intros Hpoll. unfold receive_messages_iteration, call. rewrite Hpoll.
  unfold try_except. cbn. by destruct (isinstance_Exception e).
Qed.

Lemma iteration_survives w sqs : survives (receive_messages_iteration w sqs).
Proof.
  destruct (receive_message sqs (SQS_QUEUE_URL w) 1 10 20) as [[ms|]|e] eqn:Hpoll.
  - rewrite (iteration_messages _ _ _ Hpoll).
    apply (for_each_survives ms (process_message w sqs) (process_message_survives w sqs)).
  - rewrite (iteration_empty _ _ Hpoll). left. by exists tt.
  - rewrite (iteration_failed _ _ _ Hpoll). unfold survives, outcome. cbn.
    destruct (isinstance_Exception e) eqn:K; eauto.
Qed.

(** The calls on the queues in one run and in one turn. *)
Lemma process_message_queues w sqs m ev :
  In ev (trace (process_message w sqs m)) ->
  match ev with
  | ReceiveMessage _ _ _ _ _ => False
  | SendMessage q _ _ => q = DEAD_LETTER_QUEUE_URL w
  | DeleteMessage q _ _ => q = SQS_QUEUE_URL w
  | _ => True
  end.
Proof.
  intros Hin.
  by_paths w sqs m; in_trace; handler_events; by simplify_eq.
Qed.

Lemma iteration_queues w sqs ev :
  In ev (trace (receive_messages_iteration w sqs)) ->
  match ev with
  | ReceiveMessage q max visibility wait r =>
      q = SQS_QUEUE_URL w /\ max = 1 /\ visibility = 10 /\ wait = 20
      /\ r = receive_message sqs q 1 10 20
  | SendMessage q _ _ => q = DEAD_LETTER_QUEUE_URL w
  | DeleteMessage q _ _ => q = SQS_QUEUE_URL w
  | _ => True
  end.
Proof.
  destruct (receive_message sqs (SQS_QUEUE_URL w) 1 10 20) as [[ms|]|e] eqn:Hpoll.
  - rewrite (iteration_messages _ _ _ Hpoll). unfold trace at 1. cbn [snd].
    intros [<-|Hin]; [done|]. apply in_app_or in Hin as [Hin|Hin].
    + apply in_for_each in Hin as (m & _ & Hin).
      apply process_message_queues in Hin. by destruct ev.
    + destruct (outcome _) as [|e]; [done|].
      destruct (isinstance_Exception e); in_trace; by simplify_eq.
  - rewrite (iteration_empty _ _ Hpoll). unfold trace. cbn [snd].
    intros Hin. in_trace; by simplify_eq.
  - rewrite (iteration_failed _ _ _ Hpoll). unfold trace. cbn [snd].
    intros Hin. destruct (isinstance_Exception e); in_trace; by simplify_eq.
Qed.

Lemma receive_messages_from_survives i turns w sqs :
  survives (receive_messages_from i turns w sqs).
Proof.
  revert i. induction turns as [|turns IH]; intros i; cbn [receive_messages_from].
  - left. by exists tt.
  - unfold survives. rewrite bind_outcome.
    destruct (iteration_survives (w i) (sqs i)) as [[[] Hx] | (e & Hx & He)]; rewrite Hx.
    + apply IH.
    + right. by exists e.
Qed.

Lemma in_receive_messages_from i turns w sqs ev :
  In ev (trace (receive_messages_from i turns w sqs)) ->
  exists k, (i <= k < i + turns)%nat
    /\ In ev (trace (receive_messages_iteration (w k) (sqs k))).
Proof.
  revert i. induction turns as [|turns IH]; intros i; cbn [receive_messages_from];
    [by intros []|].
  rewrite bind_trace. intros Hin.
  destruct (outcome (receive_messages_iteration (w i) (sqs i)));
    [apply in_app_or in Hin as [Hin|Hin]|].
  - exists i. split; [lia|done].
  - destruct (IH _ Hin) as (k & Hk & Hev). exists k. split; [lia|done].
  - exists i. split; [lia|done].
Qed.

Lemma receive_calls_app t1 t2 :
  receive_calls (t1 ++ t2) = receive_calls t1 ++ receive_calls t2.
Proof. apply omap_app. Qed.

Lemma no_polls t :
  (forall ev, In ev t -> match ev with ReceiveMessage _ _ _ _ _ => False | _ => True end) ->
  receive_calls t = [].
Proof.
  induction t as [|ev t IH]; intros H; [done|].
  pose proof (H ev (or_introl eq_refl)) as Hev.
  change (ev :: t) with ([ev] ++ t).
  rewrite receive_calls_app, IH by (intros; apply H; by right). by destruct ev.
Qed.

Lemma iteration_polls w sqs :
  receive_calls (trace (receive_messages_iteration w sqs)) = [SQS_QUEUE_URL w].
Proof.
  destruct (receive_message sqs (SQS_QUEUE_URL w) 1 10 20) as [[ms|]|e] eqn:Hpoll.
  - rewrite (iteration_messages _ _ _ Hpoll). unfold trace at 1. cbn [snd].
    match goal with |- receive_calls (?ev :: ?t) = _ => change (ev :: t) with ([ev] ++ t) end.
    rewrite !receive_calls_app, (no_polls (trace _)).
    + by destruct (outcome _) as [|e]; [|destruct (isinstance_Exception e)].
    + intros ev Hin. apply in_for_each in Hin as (m & _ & Hin).
      apply process_message_queues in Hin. by destruct ev.
  - by rewrite (iteration_empty _ _ Hpoll).
  - rewrite (iteration_failed _ _ _ Hpoll). by destruct (isinstance_Exception e).
Qed.

Lemma receive_messages_from_polls i turns w sqs :
  (length (receive_calls (trace (receive_messages_from i turns w sqs))) <= turns)%nat
  /\ (outcome (receive_messages_from i turns w sqs) = Returned tt ->
      length (receive_calls (trace (receive_messages_from i turns w sqs))) = turns).
Proof.
  revert i. induction turns as [|turns IH]; intros i; cbn [receive_messages_from]; [done|].
  rewrite bind_outcome, bind_trace. destruct (IH (S i)) as [IH1 IH2].
  destruct (outcome (receive_messages_iteration (w i) (sqs i))) as [[]|e].
  - rewrite receive_calls_app, length_app, iteration_polls. cbn [length].
    split; [lia|]. intros H. rewrite (IH2 H). lia.
  - rewrite iteration_polls. cbn [length]. split; [lia|done].
Qed.

Lemma receive_messages_from_repeated i turns w sqs t :
  (forall k, (i <= k < i + turns)%nat ->
     receive_messages_iteration (w k) (sqs k) = (Returned tt, t)) ->
  receive_messages_from i turns w sqs = (Returned tt, repeated turns t).
Proof.
  revert i. induction turns as [|turns IH]; intros i H;
    cbn [receive_messages_from repeated]; [done|].
  rewrite (H i) by lia. rewrite bind_returned, IH by (intros; apply H; lia). done.
Qed.

Lemma receive_messages_from_stops i k turns w sqs e t :
  (k < turns)%nat ->
  (forall j, (i <= j < i + k)%nat ->
     outcome (receive_messages_iteration (w j) (sqs j)) = Returned tt) ->
  receive_messages_iteration (w (i + k)%nat) (sqs (i + k)%nat) = (Raised e, t) ->
  receive_messages_from i turns w sqs =
    (Raised e,
     concat (map (fun j => trace (receive_messages_iteration (w j) (sqs j))) (seq i k)) ++ t).
Proof.
  revert i turns. induction k as [|k IH]; intros i turns Hlt Hbefore Hstop;
    (destruct turns as [|turns]; [lia|]); cbn [receive_messages_from seq map concat].
  - replace (i + 0)%nat with i in Hstop by lia. by rewrite Hstop.
  - pose proof (Hbefore i ltac:(lia)) as Hi.
    destruct (receive_messages_iteration (w i) (sqs i)) as [r ti] eqn:E.
    unfold outcome in Hi. cbn in Hi. subst r.
    rewrite bind_returned, (IH (S i) turns).
    + unfold outcome, trace. cbn. by rewrite app_assoc.
    + lia.
    + intros j Hj. apply Hbefore. lia.
    + by replace (S i + k)%nat with (i + S k)%nat by lia.
Qed.

(* ================================================================== *)
(** ** The entry point *)
(* ================================================================== *)

Lemma missing_vars_none sys :
  List.filter (not_set sys) required_env_vars = [] ->
  forall var, In var required_env_vars -> not_set sys var = false.
Proof.
  intros Hnone var Hin. destruct (not_set sys var) eqn:E; [|done].
  assert (In var (List.filter (not_set sys) required_env_vars)) as H
    by (apply filter_In; by split).
  rewrite Hnone in H. destruct H.
Qed.

Lemma Main_bind_returned {A B} (a : A) (t : list MainEvent) (f : A -> Main B) :
  ((Returned a, t) ≫= f) = (fst (f a), t ++ snd (f a)).
Proof. unfold mbind, Main_bind. by destruct (f a). Qed.

(** [main] up to the loop, when no variable is missing. *)
Lemma main_try_started sys w turns :
  List.filter (not_set sys) required_env_vars = [] ->
  main_try sys w turns =
    match os_makedirs sys ORIGINALS_DIR true with
    | Raised e => (Raised e, [MakeDirs ORIGINALS_DIR true (Raised e)])
    | Returned _ =>
        match os_makedirs sys RESIZED_DIR true with
        | Raised e =>
            (Raised e,
             [MakeDirs ORIGINALS_DIR true (Returned tt); MakeDirs RESIZED_DIR true (Raised e)])
        | Returned _ =>
            let made :=
              boto3_client sys "sqs" (AWS_REGION_NAME sys)
                (AWS_ACCESS_KEY_ID sys) (AWS_SECRET_ACCESS_KEY sys) in
            match made with
            | Raised e =>
                (Raised e,
                 [MakeDirs ORIGINALS_DIR true (Returned tt);
                  MakeDirs RESIZED_DIR true (Returned tt);
                  Boto3Client "sqs" (AWS_REGION_NAME sys)
                    (AWS_ACCESS_KEY_ID sys) (AWS_SECRET_ACCESS_KEY sys) made])
            | Returned sqs_client =>
                (outcome (receive_messages turns (fun i => with_globals sys (w i)) sqs_client),
                 MakeDirs ORIGINALS_DIR true (Returned tt)
                 :: MakeDirs RESIZED_DIR true (Returned tt)
                 :: Boto3Client "sqs" (AWS_REGION_NAME sys)
                      (AWS_ACCESS_KEY_ID sys) (AWS_SECRET_ACCESS_KEY sys) made
                 :: map Worker
                      (trace (receive_messages turns (fun i => with_globals sys (w i))
                                sqs_client)))
            end
        end
    end.
Proof.
  intros Hnone. unfold main_try. rewrite Hnone. cbn zeta. unfold main_call.
  destruct (os_makedirs sys ORIGINALS_DIR true) as [[]|e]; [|done].
  rewrite Main_bind_returned.
  destruct (os_makedirs sys RESIZED_DIR true) as [[]|e]; [|done].
  rewrite Main_bind_returned.
  destruct (boto3_client sys _ _ _ _) as [sqs_client|e] eqn:E; rewrite ?E; [|done].
  rewrite Main_bind_returned. reflexivity.
Qed.

Lemma main_try_stopped sys w turns :
  List.filter (not_set sys) required_env_vars <> [] ->
  main_try sys w turns =
    (Raised (SystemExit "1"),
     [MissingVariables (List.filter (not_set sys) required_env_vars)]).
Proof.
  intros Hsome. unfold main_try.
  by destruct (List.filter (not_set sys) required_env_vars).
Qed.

Lemma set_variable sys var :
  not_set sys var = false -> exists v, environ sys !! var = Some v /\ v <> "".
Proof.
  unfold not_set, getenv. destruct (environ sys !! var) as [v|]; [|done].
  intros H. exists v. split; [done|]. by apply String.eqb_neq.
Qed.

(** Whatever the worker does inside [main], it does after the start-up. *)
Lemma main_worker_events sys w turns ev :
  In (Worker ev) (main_trace (main sys w turns)) ->
  List.filter (not_set sys) required_env_vars = []
  /\ exists sqs_client rest,
       boto3_client sys "sqs" (AWS_REGION_NAME sys)
         (AWS_ACCESS_KEY_ID sys) (AWS_SECRET_ACCESS_KEY sys) = Returned sqs_client
       /\ main_trace (main sys w turns) =
            MakeDirs ORIGINALS_DIR true (Returned tt)
            :: MakeDirs RESIZED_DIR true (Returned tt)
            :: Boto3Client "sqs" (AWS_REGION_NAME sys)
                 (AWS_ACCESS_KEY_ID sys) (AWS_SECRET_ACCESS_KEY sys) (Returned sqs_client)
            :: rest
       /\ In ev (trace (receive_messages turns (fun i => with_globals sys (w i)) sqs_client)).
Proof.
  unfold main, main_trace.
  destruct (List.filter (not_set sys) required_env_vars) as [|v vs] eqn:Hmissing.
  2: { rewrite main_try_stopped by (rewrite Hmissing; discriminate). cbn.
       intros H; in_trace; discriminate. }
  rewrite (main_try_started _ _ _ Hmissing). cbn zeta.
  destruct (os_makedirs sys ORIGINALS_DIR true) as [[]|e].
  2: { destruct (isinstance_KeyboardInterrupt e); cbn; intros H; in_trace; discriminate. }
  destruct (os_makedirs sys RESIZED_DIR true) as [[]|e].
  2: { destruct (isinstance_KeyboardInterrupt e); cbn; intros H; in_trace; discriminate. }
  destruct (boto3_client sys _ _ _ _) as [sqs_client|e].
  2: { destruct (isinstance_KeyboardInterrupt e); cbn; intros H; in_trace; discriminate. }
  intros Hin. split; [done|]. exists sqs_client.
  destruct (outcome (receive_messages _ _ _)) as [[]|e];
    [|destruct (isinstance_KeyboardInterrupt e)]; cbn [snd] in *.
  all: eexists; split; [reflexivity|]; split; [reflexivity|].
  all: in_trace; try discriminate.
  all: try (apply in_map_iff in Hin as (ev' & Hev & Hin); by simplify_eq).
Qed.

(* ================================================================== *)
(** ** Decimal numerals *)
(* ================================================================== *)

Module IntFacts.

Lemma all_digits_uint d : all_digits (NilEmpty.string_of_uint d) = true.
Proof. induction d; cbn; done. Qed.

Lemma digit_is_no_space c : is_digit c = true -> is_space c = false.
Proof.
  unfold is_digit, is_space. cbn zeta. intros H.
  apply andb_true_iff in H as [H1 H2]. apply N.leb_le in H1.
  apply orb_false_iff. split.
  - apply andb_false_iff. right. apply N.leb_gt. lia.
  - apply N.eqb_neq. lia.
Qed.

Lemma lstrip_digits s : all_digits s = true -> lstrip s = s.
Proof.
  destruct s as [|c s]; [done|]. cbn. intros H.
  apply andb_true_iff in H as [H _]. by rewrite (digit_is_no_space _ H).
Qed.

Lemma rstrip_digits s : all_digits s = true -> rstrip s = s.
Proof.
  induction s as [|c s IH]; [done|]. cbn. intros H.
  apply andb_true_iff in H as [Hc Hs]. rewrite (IH Hs).
  destruct s; [|done]. by rewrite (digit_is_no_space _ Hc).
Qed.

Lemma count_all_digits s :
  all_digits s = true -> count_digits s = N.of_nat (String.length s).
Proof.
  induction s as [|c s IH]; [done|]. cbn [all_digits count_digits String.length].
  intros H. apply andb_true_iff in H as [Hc Hs]. rewrite Hc, (IH Hs). lia.
Qed.

Lemma int_digits_uint d (acc : nat) b :
  d <> Nil \/ b = true ->
  int_digits (NilEmpty.string_of_uint d) (Z.of_nat acc) b
  = Some (Z.of_nat (Nat.of_uint_acc d acc)).
Proof.
  revert acc b.
  induction d as [|d IH|d IH|d IH|d IH|d IH|d IH|d IH|d IH|d IH|d IH]; intros acc b Hd.
  { destruct Hd as [Hd| ->]; [by destruct Hd|]. reflexivity. }
  all: cbn [NilEmpty.string_of_uint int_digits Nat.of_uint_acc].
  all: rewrite Nat.tail_mul_spec.
  all: match goal with
       | |- context [is_digit ?c] => change (is_digit c) with true; cbv iota
       end.
  all: match goal with
       | |- int_digits _ ?z _ = Some (Z.of_nat (Nat.of_uint_acc _ ?k)) =>
           replace z with (Z.of_nat k) by (unfold digit_val; cbn; lia)
       end.
  all: apply IH; by right.
Qed.

Lemma to_uint_nonnil n : Nat.to_uint n <> Nil.
Proof.
  intros H. pose proof (DecimalNat.Unsigned.of_to n) as Hn.
  rewrite H in Hn. cbn in Hn. subst n. discriminate H.
Qed.

Lemma numeral_digits n : numeral n = NilEmpty.string_of_uint (Nat.to_uint n).
Proof.
  unfold numeral, NilZero.string_of_uint.
  pose proof (to_uint_nonnil n). by destruct (Nat.to_uint n).
Qed.

Lemma first_digit s :
  all_digits s = true ->
  match s with
  | String "-" r => (true, r)
  | String "+" r => (false, r)
  | _ => (false, s)
  end = (false, s).
Proof.
  destruct s as [|c s]; [done|]. cbn [all_digits]. intros H.
  apply andb_true_iff in H as [Hc _].
  destruct c as [[] [] [] [] [] [] [] []]; try discriminate Hc; reflexivity.
Qed.

(** [int] reads a decimal numeral back as the number it was written from. *)
Lemma int_numeral n :
  (String.length (numeral n) <= 4300)%nat ->
  Py.int (numeral n) = Returned (Z.of_nat n).
Proof.
  intros Hlen. rewrite numeral_digits in *.
  pose proof (all_digits_uint (Nat.to_uint n)) as Hd.
  unfold Py.int. rewrite (lstrip_digits _ Hd), (rstrip_digits _ Hd). cbn zeta.
  rewrite (first_digit _ Hd).
  rewrite (int_digits_uint _ 0 false) by (left; apply to_uint_nonnil).
  rewrite (count_all_digits _ Hd).
  replace (max_str_digits <? _)%N with false
    by (symmetry; apply N.ltb_ge; unfold max_str_digits; lia).
  f_equal. f_equal. apply DecimalNat.Unsigned.of_to.
Qed.

End IntFacts.

(* ================================================================== *)
(** ** What one run does *)
(* ================================================================== *)


(** X2. A message whose Attributes lack ApproximateReceiveCount, or hold
    one that int() rejects, is neither quarantined nor processed:
    process_message makes no collaborator call, logs the error and
    returns. The missing attribute is a KeyError and goes to the generic
    handler; the count that is no number is a ValueError and is logged by
    the handler written for JSON parse failures. *)
Theorem unusable_receive_count
    (w : World) (sqs_client : SqsClient) (m : Message) (e : Exn) :
  receive_count m = Raised e ->
  process_message w sqs_client m = (Returned tt, handled (Raised e))
  /\ (Attributes m !! "ApproximateReceiveCount" = None ->
      e = KeyError "ApproximateReceiveCount"
      /\ handled (Raised e) = [Log EXCEPTION (ErrorProcessing e)])
  /\ (forall count, Attributes m !! "ApproximateReceiveCount" = Some count ->
      Py.int count = Raised e
      /\ handled (Raised e) = [Log ERROR (UnableToParseBody e)]).
Proof.
  intros He. unfold receive_count, subscript in He.
  split; [|split].
  - rewrite process_message_handlers. unfold process_message_try, subscript.
    destruct (Attributes m !! "ApproximateReceiveCount") as [count|].
    + rewrite bind_lift, He, bind_lift_raised. cbn.
      apply int_raises_ValueError in He. unfold isinstance_ValueError in He.
      unfold isinstance_Exception. by destruct (exn_kind e).
    + simplify_eq. by rewrite bind_lift_raised.
  - intros Hnone. rewrite Hnone in He. by simplify_eq.
  - intros count Hc. rewrite Hc in He. split; [exact He|].
    apply int_raises_ValueError in He. cbn. by rewrite He.
Qed.

Lemma unusable_receive_count_witness :
  (receive_count Cases.no_count = Raised (KeyError "ApproximateReceiveCount")
   /\ process_message Scenario.world Scenario.sqs Cases.no_count
      = (Returned tt,
         [Log EXCEPTION (ErrorProcessing (KeyError "ApproximateReceiveCount"))]))
  /\ (receive_count (Scenario.message "ten" Scenario.image_123)
      = Raised (ValueError "invalid literal for int() with base 10")
      /\ process_message Scenario.world Scenario.sqs
           (Scenario.message "ten" Scenario.image_123)
         = (Returned tt,
            [Log ERROR (UnableToParseBody
                          (ValueError "invalid literal for int() with base 10"))])).
Proof.
  split; (split; [reflexivity|]).
  - apply (unusable_receive_count Scenario.world Scenario.sqs Cases.no_count
             (KeyError "ApproximateReceiveCount") eq_refl).
  - apply (unusable_receive_count Scenario.world Scenario.sqs
             (Scenario.message "ten" Scenario.image_123)
             (ValueError "invalid literal for int() with base 10") eq_refl).
Defined.

(** X3. Within the limit of 10 receives, a body that is valid JSON but not
    an object (a list, a number, a string, null) fails at body.get with an
    AttributeError: the generic handler logs it, no collaborator is called
    and process_message returns. *)
Theorem body_that_is_no_object
    (w : World) (sqs_client : SqsClient) (m : Message) (n : Z) (body : Value) :
  receive_count m = Returned n ->
  n <= 10 ->
  Json.loads (recursion_limit w) (Body m) = Returned body ->
  (forall d, body <> VDict d) ->
  exists e : Exn,
    Py.get body "id" = Raised e
    /\ process_message w sqs_client m = (Returned tt, [Log EXCEPTION (ErrorProcessing e)]).
Proof.
  intros Hn Hle Hb Hd.
  rewrite process_message_handlers, (process_message_try_dispatch _ _ _ _ Hn).
  replace (10 <? n) with false by (symmetry; apply Z.ltb_ge; lia).
  unfold process_valid_message. rewrite Hb, bind_lift.
  destruct body; try (by destruct (Hd d)); cbn; eauto.
Qed.

Lemma body_that_is_no_object_witness :
  receive_count (Scenario.message "1" Cases.a_list) = Returned 1
  /\ 1 <= 10
  /\ Json.loads 990 Cases.a_list = Returned (VList [VInt 1; VInt 2])
  /\ exists e : Exn,
       Py.get (VList [VInt 1; VInt 2]) "id" = Raised e
       /\ process_message Scenario.world Scenario.sqs (Scenario.message "1" Cases.a_list)
          = (Returned tt, [Log EXCEPTION (ErrorProcessing e)]).
Proof.
  split; [reflexivity|]. split; [lia|]. split; [vm_compute; reflexivity|].
  apply (body_that_is_no_object Scenario.world Scenario.sqs
           (Scenario.message "1" Cases.a_list) 1 (VList [VInt 1; VInt 2]));
    [reflexivity | lia | vm_compute; reflexivity | discriminate].
Defined.

(** X4. download_image accepts status 200 only: whenever the fetch comes
    back with any other status, 204 and the rest of the 2xx range
    included, the run is the fetch and the download error in the log, with
    no persist call and no delete. *)
Theorem only_200_is_fetched
    (w : World) (sqs_client : SqsClient) (m : Message) (url : Value) (resp : Response) :
  In (RequestsGet url (Returned resp)) (trace (process_message w sqs_client m)) ->
  status_code resp <> 200 ->
  process_message w sqs_client m =
    (Returned tt, [RequestsGet url (Returned resp); Log ERROR (FailedToDownload url)])
  /\ delete_calls (trace (process_message w sqs_client m)) = []
  /\ persist_calls (trace (process_message w sqs_client m)) = [].
Proof.
  intros Hin Hst.
  by_paths w sqs_client m; in_trace; handler_events; simplify_eq; handlers; done.
Qed.

(** X5. When requests.get itself raises, nothing follows the fetch but the
    handlers of process_message: no persist call and no delete is made, so
    the message stays in the queue. *)
Theorem unreachable_image_leaves_message
    (w : World) (sqs_client : SqsClient) (m : Message) (url : Value) (e : Exn) :
  In (RequestsGet url (Raised e)) (trace (process_message w sqs_client m)) ->
  process_message w sqs_client m =
    (after_handlers (Raised e), RequestsGet url (Raised e) :: handled (Raised e))
  /\ delete_calls (trace (process_message w sqs_client m)) = []
  /\ persist_calls (trace (process_message w sqs_client m)) = [].
Proof.
  intros Hin.
  by_paths w sqs_client m; in_trace; handler_events; simplify_eq; handlers; done.
Qed.

Lemma only_200_is_fetched_witness :
  let run := process_message (Scenario.with_status 204) Scenario.sqs
               (Scenario.message "1" Scenario.image_123) in
  let url := VStr "http://example.com/image.jpg" in
  let resp := {| status_code := 204; content := [] |} in
  In (RequestsGet url (Returned resp)) (trace run)
  /\ status_code resp <> 200
  /\ delete_calls (trace run) = []
  /\ persist_calls (trace run) = [].
Proof.
  intros run url resp.
  assert (In (RequestsGet url (Returned resp)) (trace run)) as Hin
    by (vm_compute; left; reflexivity).
  assert (status_code resp <> 200) as Hst by (cbn; lia).
  split; [exact Hin|]. split; [exact Hst|].
  apply (only_200_is_fetched (Scenario.with_status 204) Scenario.sqs
           (Scenario.message "1" Scenario.image_123) url resp Hin Hst).
Defined.

Lemma unreachable_image_leaves_message_witness :
  let run := process_message Cases.offline Scenario.sqs
               (Scenario.message "1" Scenario.image_123) in
  let url := VStr "http://example.com/image.jpg" in
  In (RequestsGet url (Raised Cases.ConnectionError)) (trace run)
  /\ run = (Returned tt,
            [RequestsGet url (Raised Cases.ConnectionError);
             Log EXCEPTION (ErrorProcessing Cases.ConnectionError)])
  /\ delete_calls (trace run) = []
  /\ persist_calls (trace run) = [].
Proof.
  intros run url.
  assert (In (RequestsGet url (Raised Cases.ConnectionError)) (trace run)) as Hin
    by (vm_compute; left; reflexivity).
  split; [exact Hin|].
  apply (unreachable_image_leaves_message Cases.offline Scenario.sqs
           (Scenario.message "1" Scenario.image_123) url Cases.ConnectionError Hin).
Defined.

(** X6. In every run the files that were opened are exactly the files that
    were closed, in the same order: the with block of save_original_image
    closes the file also when the write raises. *)
Theorem every_opened_file_is_closed (w : World) (sqs_client : SqsClient) (m : Message) :
  opened (trace (process_message w sqs_client m))
  = closed (trace (process_message w sqs_client m)).
Proof. by_paths w sqs_client m; handlers; done. Qed.

(** X7. If the open, the write or the close of the original raises,
    resize_and_save_image is not called and the message is neither deleted
    nor forwarded. *)
Theorem failed_save_stops_processing
    (w : World) (sqs_client : SqsClient) (m : Message) (ev : Event) :
  In ev (trace (process_message w sqs_client m)) ->
  save_failed ev = true ->
  List.filter is_resize (trace (process_message w sqs_client m)) = []
  /\ delete_calls (trace (process_message w sqs_client m)) = []
  /\ send_calls (trace (process_message w sqs_client m)) = [].
Proof.
  intros Hin Hev.
  by_paths w sqs_client m; in_trace; handler_events; simplify_eq; handlers; done.
Qed.

Lemma failed_save_stops_processing_witness :
  let run := process_message Cases.read_only Scenario.sqs
               (Scenario.message "1" Scenario.image_123) in
  let ev := Open "originals/123.jpg" "wb" (Raised Cases.PermissionError) in
  In ev (trace run)
  /\ save_failed ev = true
  /\ List.filter is_resize (trace run) = []
  /\ delete_calls (trace run) = []
  /\ send_calls (trace run) = [].
Proof.
  intros run ev.
  assert (In ev (trace run)) as Hin by (vm_compute; tauto).
  split; [exact Hin|]. split; [reflexivity|].
  apply (failed_save_stops_processing Cases.read_only Scenario.sqs
           (Scenario.message "1" Scenario.image_123) ev Hin eq_refl).
Defined.

(** X8. Every delete_message call of a run is made on the main queue with
    the message's own receipt handle, and only in one of two situations:
    the receive count is over 10 and the dead-letter send has returned
    (and nothing was written), or the count is within the limit and both
    images were written, the original and the resized one under the same
    file name. *)
Theorem deleted_only_when_done
    (w : World) (sqs_client : SqsClient) (m : Message)
    (q : option string) (rh : string) (r : Outcome unit) :
  In (DeleteMessage q rh r) (trace (process_message w sqs_client m)) ->
  q = SQS_QUEUE_URL w /\ rh = ReceiptHandle m
  /\ r = delete_message sqs_client q rh
  /\ ((exists n : Z,
         receive_count m = Returned n /\ 10 < n
         /\ In (SendMessage (DEAD_LETTER_QUEUE_URL w) (Body m) (Returned tt))
              (trace (process_message w sqs_client m))
         /\ artifacts (trace (process_message w sqs_client m)) = [])
      \/ (exists (n : Z) (d : list (string * Value)) (ext : string),
            receive_count m = Returned n /\ n <= 10
            /\ Json.loads (recursion_limit w) (Body m) = Returned (VDict d)
            /\ get_image_ext (dict_get d "image_url") = Returned ext
            /\ artifacts (trace (process_message w sqs_client m))
                = [OsPath.join ORIGINALS_DIR (str w (dict_get d "id") +:+ ext);
                   OsPath.join RESIZED_DIR (str w (dict_get d "id") +:+ ext)]
            /\ send_calls (trace (process_message w sqs_client m)) = [])).
Proof.
  intros Hin.
  by_paths w sqs_client m; in_trace; handler_events; simplify_eq.
  - do 3 (split; [reflexivity|]). left. exists n.
    do 2 (split; [assumption|]). split; [cbn; tauto|].
    unfold artifacts. rewrite omap_app. handlers; done.
  - do 3 (split; [reflexivity|]). right. exists n, d, ext.
    do 4 (split; [assumption|]).
    unfold artifacts, send_calls. rewrite !omap_app. handlers; done.
Qed.

Lemma deleted_only_when_done_witness :
  let run := process_message Scenario.world Scenario.sqs
               (Scenario.message "1" Scenario.image_123) in
  In (DeleteMessage (Some "https://sqs/main") "dummy_receipt_handle" (Returned tt)) (trace run)
  /\ artifacts (trace run) = ["originals/123.jpg"; "resized/123.jpg"].
Proof.
  intros run.
  assert (In (DeleteMessage (Some "https://sqs/main") "dummy_receipt_handle" (Returned tt))
            (trace run)) as Hin by (vm_compute; tauto).
  split; [exact Hin|].
  destruct (deleted_only_when_done Scenario.world Scenario.sqs
              (Scenario.message "1" Scenario.image_123) _ _ _ Hin)
    as (_ & _ & _ & [(n & Hn & Hlt & _) | (n & d & ext & _ & _ & _ & _ & Hart & _)]).
  - vm_compute in Hn. injection Hn as <-. lia.
  - vm_compute. reflexivity.
Defined.

(** X9. One run of process_message makes at most one dead-letter send (to
    DEAD_LETTER_QUEUE_URL, with the raw body), at most one delete (on
    SQS_QUEUE_URL, with the message's receipt handle) and at most one
    fetch; it never both forwards and fetches, and it never polls the
    queue. *)
Theorem calls_of_one_run (w : World) (sqs_client : SqsClient) (m : Message) :
  let t := trace (process_message w sqs_client m) in
  (send_calls t = [] \/ send_calls t = [(DEAD_LETTER_QUEUE_URL w, Body m)])
  /\ (delete_calls t = [] \/ delete_calls t = [(SQS_QUEUE_URL w, ReceiptHandle m)])
  /\ (fetch_calls t = [] \/ exists url : Value, fetch_calls t = [url])
  /\ (send_calls t = [] \/ fetch_calls t = [])
  /\ receive_calls t = [].
Proof.
  cbn zeta. by_paths w sqs_client m; handlers; eauto 10.
Qed.

(** X10. What Image.save is called with is the (256, 256) LANCZOS thumbnail
    of the image decoded from the very bytes that were already written in
    full to the original file, and the path it is saved at is
    os.path.join(RESIZED_DIR, <id><ext>) with the <id><ext> of the
    original's path os.path.join(ORIGINALS_DIR, <id><ext>). *)
Theorem resized_is_thumbnail_of_original
    (w : World) (sqs_client : SqsClient) (m : Message)
    (im' : Image) (path : string) (r : Outcome unit) :
  In (ImageSave im' path r) (trace (process_message w sqs_client m)) ->
  exists (d : list (string * Value)) (resp : Response) (ext : string) (im : Image),
    Json.loads (recursion_limit w) (Body m) = Returned (VDict d)
    /\ requests_get w (dict_get d "image_url") = Returned resp
    /\ get_image_ext (dict_get d "image_url") = Returned ext
    /\ path = OsPath.join RESIZED_DIR (str w (dict_get d "id") +:+ ext)
    /\ Image_open w (content resp) = Returned im
    /\ Image_thumbnail w im (256, 256) LANCZOS = Returned im'
    /\ r = Image_save w im' path
    /\ In (Write (OsPath.join ORIGINALS_DIR (str w (dict_get d "id") +:+ ext))
             (content resp) (Returned tt))
          (trace (process_message w sqs_client m)).
Proof.
  intros Hin.
  by_paths w sqs_client m; in_trace; handler_events; simplify_eq.
  all: eexists _, _, _, _; repeat (split; [eassumption || reflexivity|]).
  all: split; [symmetry; eassumption|].
  all: apply in_or_app; left; cbn; tauto.
Qed.

Lemma resized_is_thumbnail_of_original_witness :
  let run := process_message Scenario.world Scenario.sqs
               (Scenario.message "1" Scenario.image_123) in
  let im' := {| im_size := (256, 128); im_data := Scenario.png |} in
  In (ImageSave im' "resized/123.jpg" (Returned tt)) (trace run)
  /\ exists im : Image,
       Image_open Scenario.world Scenario.png = Returned im
       /\ Image_thumbnail Scenario.world im (256, 256) LANCZOS = Returned im'.
Proof.
  intros run im'.
  assert (In (ImageSave im' "resized/123.jpg" (Returned tt)) (trace run)) as Hin
    by (vm_compute; tauto).
  split; [exact Hin|].
  destruct (resized_is_thumbnail_of_original Scenario.world Scenario.sqs
              (Scenario.message "1" Scenario.image_123) _ _ _ Hin)
    as (d & resp & ext & im & _ & Hget & _ & _ & Hopen & Hthumb & _).
  exists im. injection Hget as <-. split; [exact Hopen | exact Hthumb].
Defined.

(** X11. Within the limit, a work item whose image_url is not a string (a
    number, a list, an object) is never stored, deleted or forwarded: when
    the fetch is made and answers 200, get_image_ext raises the TypeError
    of os.path.splitext, which the generic handler logs. *)
Theorem url_that_is_no_string
    (w : World) (sqs_client : SqsClient) (m : Message) (n : Z) (d : list (string * Value)) :
  receive_count m = Returned n ->
  n <= 10 ->
  Json.loads (recursion_limit w) (Body m) = Returned (VDict d) ->
  (forall u : string, dict_get d "image_url" <> VStr u) ->
  persist_calls (trace (process_message w sqs_client m)) = []
  /\ delete_calls (trace (process_message w sqs_client m)) = []
  /\ send_calls (trace (process_message w sqs_client m)) = []
  /\ forall resp : Response,
       truthy (dict_get d "id") = true ->
       truthy (dict_get d "image_url") = true ->
       requests_get w (dict_get d "image_url") = Returned resp ->
       status_code resp = 200 ->
       process_message w sqs_client m =
         (Returned tt,
          [RequestsGet (dict_get d "image_url") (Returned resp);
           Log EXCEPTION
             (ErrorProcessing (TypeError "expected str, bytes or os.PathLike object"))]).
Proof.
  intros Hn Hle Hbody Hurl.
  assert (get_image_ext (dict_get d "image_url")
          = Raised (TypeError "expected str, bytes or os.PathLike object")) as Hext.
  { unfold get_image_ext. destruct (dict_get d "image_url"); try reflexivity.
    by destruct (Hurl s). }
  by_paths w sqs_client m; same_answers; try lia.
  all: split; [|split; [|split]]; try (handlers; done).
  all: intros resp' Hid' Hurl' Hget' Hok'; same_answers; try done; try lia.
  match goal with H : _ = false \/ _ = false |- _ => destruct H; congruence end.
Qed.

Lemma url_that_is_no_string_witness :
  let m := Scenario.message "1" Cases.numeric_url in
  let d := [("id", VStr "123"); ("image_url", VInt 5)] in
  receive_count m = Returned 1
  /\ Json.loads 990 (Body m) = Returned (VDict d)
  /\ process_message Scenario.world Scenario.sqs m =
       (Returned tt,
        [RequestsGet (VInt 5) (Returned {| status_code := 200; content := Scenario.png |});
         Log EXCEPTION
           (ErrorProcessing (TypeError "expected str, bytes or os.PathLike object"))]).
Proof.
  intros m d.
  assert (receive_count m = Returned 1) as Hn by reflexivity.
  assert (Json.loads 990 (Body m) = Returned (VDict d)) as Hbody
    by (vm_compute; reflexivity).
  split; [exact Hn|]. split; [exact Hbody|].
  apply (url_that_is_no_string Scenario.world Scenario.sqs m 1 d Hn ltac:(lia) Hbody);
    [intros u; vm_compute; discriminate | reflexivity | reflexivity | reflexivity | reflexivity].
Defined.

(* ================================================================== *)
(** ** What the loop does *)
(* ================================================================== *)

(** X12. In one turn of the loop the messages of a poll are handled one
    after the other in the order received, and a message whose handling
    ends in an Exception does not keep the later ones from being handled:
    the turn is the poll followed by every message's run. *)
Theorem failed_message_does_not_stop_batch
    (w : World) (sqs_client : SqsClient) (messages : list Message) :
  receive_message sqs_client (SQS_QUEUE_URL w) 1 10 20 = Returned (Some messages) ->
  (forall m e, In m messages ->
     outcome (process_message_try w sqs_client m) = Raised e ->
     isinstance_Exception e = true) ->
  receive_messages_iteration w sqs_client =
    (Returned tt,
     ReceiveMessage (SQS_QUEUE_URL w) 1 10 20 (Returned (Some messages))
       :: concat (map (fun m => trace (process_message w sqs_client m)) messages)).
Proof.
  intros Hpoll Hexn.
  rewrite (iteration_messages _ _ _ Hpoll), for_each_returned.
  - unfold outcome, trace. cbn. by rewrite app_nil_r.
  - intros m Hm. rewrite process_message_handlers. unfold outcome at 1. cbn [fst].
    destruct (outcome (process_message_try w sqs_client m)) as [[]|e] eqn:Ho; [done|].
    unfold after_handlers. by rewrite (Hexn m e Hm Ho).
Qed.

Lemma failed_message_does_not_stop_batch_witness :
  let bad := Scenario.message "1" Scenario.not_json in
  let good := Scenario.message "1" Scenario.image_123 in
  let sqs_client := Cases.sqs_delivering [bad; good] in
  exists e : Exn,
    outcome (process_message_try Scenario.world sqs_client bad) = Raised e
    /\ receive_messages_iteration Scenario.world sqs_client =
         (Returned tt,
          ReceiveMessage (Some "https://sqs/main") 1 10 20 (Returned (Some [bad; good]))
            :: Log ERROR (UnableToParseBody e)
            :: trace (process_message Scenario.world sqs_client good))
    /\ delete_calls (trace (receive_messages_iteration Scenario.world sqs_client))
       = [(Some "https://sqs/main", "dummy_receipt_handle")].
Proof.
  intros bad good sqs_client.
  assert (forall m e, In m [bad; good] ->
            outcome (process_message_try Scenario.world sqs_client m) = Raised e ->
            isinstance_Exception e = true) as Hexn.
  { intros m e [<-|[<-|[]]] He; vm_compute in He; by simplify_eq. }
  pose proof (failed_message_does_not_stop_batch Scenario.world sqs_client [bad; good]
                eq_refl Hexn) as Hrun.
  eexists. split; [vm_compute; reflexivity|].
  split; [rewrite Hrun; vm_compute; reflexivity|].
  rewrite Hrun. vm_compute. reflexivity.
Defined.

(** X13. No Exception ends the consumption loop: after any number of
    turns, however the collaborators answer on each of them, the loop has
    either completed its turns or was left by something that is not an
    Exception. *)
Theorem loop_survives_exceptions
    (turns : nat) (w : nat -> World) (sqs_client : nat -> SqsClient) :
  outcome (receive_messages turns w sqs_client) = Returned tt
  \/ exists e : Exn,
       outcome (receive_messages turns w sqs_client) = Raised e
       /\ isinstance_Exception e = false.
Proof.
  destruct (receive_messages_from_survives 0 turns w sqs_client) as [[[] H]|H]; [by left|by right].
Qed.

(** X14. Every poll of the loop asks the main queue for at most 1 message
    with a visibility timeout of 10 and a wait of 20 seconds; a turn polls
    exactly once, so n completed turns make n polls and there are never
    more polls than turns. *)
Theorem polls_of_the_loop
    (turns : nat) (w : nat -> World) (sqs_client : nat -> SqsClient) :
  (forall q max visibility wait r,
     In (ReceiveMessage q max visibility wait r)
        (trace (receive_messages turns w sqs_client)) ->
     max = 1 /\ visibility = 10 /\ wait = 20
     /\ exists i, (i < turns)%nat /\ q = SQS_QUEUE_URL (w i)
          /\ r = receive_message (sqs_client i) q 1 10 20)
  /\ (length (receive_calls (trace (receive_messages turns w sqs_client))) <= turns)%nat
  /\ (outcome (receive_messages turns w sqs_client) = Returned tt ->
      length (receive_calls (trace (receive_messages turns w sqs_client))) = turns).
Proof.
  split.
  - intros q max visibility wait r Hin.
    apply in_receive_messages_from in Hin as (i & Hi & Hin).
    apply iteration_queues in Hin as (-> & -> & -> & -> & ->).
    do 3 (split; [reflexivity|]). exists i. split; [lia|done].
  - apply receive_messages_from_polls.
Qed.

(** X15. While receive_message keeps raising an Exception, every turn is
    the failed poll and one error line in the log, and the next poll
    follows at once: the loop goes on and nothing comes between two polls. *)
Theorem failing_poll_is_retried
    (turns : nat) (w : nat -> World) (sqs_client : nat -> SqsClient)
    (q : option string) (e : Exn) :
  (forall i, (i < turns)%nat ->
     SQS_QUEUE_URL (w i) = q /\ receive_message (sqs_client i) q 1 10 20 = Raised e) ->
  isinstance_Exception e = true ->
  receive_messages turns w sqs_client =
    (Returned tt,
     repeated turns [ReceiveMessage q 1 10 20 (Raised e); Log ERROR (ErrorReceiving e)]).
Proof.
  intros Hpoll He. apply receive_messages_from_repeated. intros k Hk.
  destruct (Hpoll k ltac:(lia)) as [Hq Hr]. rewrite <- Hq in Hr.
  by rewrite (iteration_failed _ _ _ Hr), He, Hq.
Qed.

Lemma failing_poll_is_retried_witness :
  receive_messages 3 (fun _ => Scenario.world) (fun _ => Cases.sqs_unreachable) =
    (Returned tt,
     [ReceiveMessage (Some "https://sqs/main") 1 10 20 (Raised Cases.EndpointConnectionError);
      Log ERROR (ErrorReceiving Cases.EndpointConnectionError);
      ReceiveMessage (Some "https://sqs/main") 1 10 20 (Raised Cases.EndpointConnectionError);
      Log ERROR (ErrorReceiving Cases.EndpointConnectionError);
      ReceiveMessage (Some "https://sqs/main") 1 10 20 (Raised Cases.EndpointConnectionError);
      Log ERROR (ErrorReceiving Cases.EndpointConnectionError)]).
Proof.
  apply (failing_poll_is_retried 3 (fun _ => Scenario.world) (fun _ => Cases.sqs_unreachable)
           (Some "https://sqs/main") Cases.EndpointConnectionError).
  - intros i _. split; reflexivity.
  - reflexivity.
Defined.

(** X16. While the queue answers without Messages, every turn is the poll
    and the line that no messages were received, and the loop goes on. *)
Theorem empty_queue_is_polled_again
    (turns : nat) (w : nat -> World) (sqs_client : nat -> SqsClient) (q : option string) :
  (forall i, (i < turns)%nat ->
     SQS_QUEUE_URL (w i) = q /\ receive_message (sqs_client i) q 1 10 20 = Returned None) ->
  receive_messages turns w sqs_client =
    (Returned tt,
     repeated turns [ReceiveMessage q 1 10 20 (Returned None); Log INFO NoMessagesReceived]).
Proof.
  intros Hpoll. apply receive_messages_from_repeated. intros k Hk.
  destruct (Hpoll k ltac:(lia)) as [Hq Hr]. rewrite <- Hq in Hr.
  by rewrite (iteration_empty _ _ Hr), Hq.
Qed.

Lemma empty_queue_is_polled_again_witness :
  receive_messages 2 (fun _ => Scenario.world) (fun _ => Scenario.sqs) =
    (Returned tt,
     [ReceiveMessage (Some "https://sqs/main") 1 10 20 (Returned None);
      Log INFO NoMessagesReceived;
      ReceiveMessage (Some "https://sqs/main") 1 10 20 (Returned None);
      Log INFO NoMessagesReceived]).
Proof.
  apply (empty_queue_is_polled_again 2 (fun _ => Scenario.world) (fun _ => Scenario.sqs)
           (Some "https://sqs/main")).
  intros i _. split; reflexivity.
Defined.

(** X17. A poll that raises something that is not an Exception (a
    KeyboardInterrupt) ends the loop on the spot: the exception leaves
    receive_messages, nothing is logged for it and no further poll is
    made. *)
Theorem interrupted_poll_ends_loop
    (turns k : nat) (w : nat -> World) (sqs_client : nat -> SqsClient) (e : Exn) :
  (k < turns)%nat ->
  (forall i, (i < k)%nat ->
     outcome (receive_messages_iteration (w i) (sqs_client i)) = Returned tt) ->
  receive_message (sqs_client k) (SQS_QUEUE_URL (w k)) 1 10 20 = Raised e ->
  isinstance_Exception e = false ->
  receive_messages turns w sqs_client =
    (Raised e,
     concat (map (fun i => trace (receive_messages_iteration (w i) (sqs_client i))) (seq 0 k))
       ++ [ReceiveMessage (SQS_QUEUE_URL (w k)) 1 10 20 (Raised e)])
  /\ length (receive_calls (trace (receive_messages turns w sqs_client))) = S k.
Proof.
  intros Hlt Hbefore Hpoll He.
  assert (receive_messages turns w sqs_client =
            (Raised e,
             concat (map (fun i => trace (receive_messages_iteration (w i) (sqs_client i)))
                       (seq 0 k))
               ++ [ReceiveMessage (SQS_QUEUE_URL (w k)) 1 10 20 (Raised e)])) as Hrun.
  { apply receive_messages_from_stops; [done | intros; apply Hbefore; lia |].
    cbn [Nat.add]. by rewrite (iteration_failed _ _ _ Hpoll), He. }
  split; [exact Hrun|]. rewrite Hrun. unfold trace. cbn [snd].
  rewrite receive_calls_app, length_app. cbn [receive_calls omap length].
  cut (forall i, length (receive_calls
         (concat (map (fun i => trace (receive_messages_iteration (w i) (sqs_client i)))
                    (seq i k)))) = k).
  { intros ->. cbn. lia. }
  clear. induction k as [|k IH]; intros i; cbn [seq map concat]; [done|].
  by rewrite receive_calls_app, length_app, iteration_polls, IH.
Qed.

Lemma interrupted_poll_ends_loop_witness :
  let interrupted : SqsClient := {|
    receive_message := fun _ _ _ _ => Raised Cases.KeyboardInterrupt;
    send_message := fun _ _ => Returned tt;
    delete_message := fun _ _ => Returned tt |} in
  let sqs_client := fun i : nat => match i with 0%nat => Scenario.sqs | _ => interrupted end in
  receive_messages 5 (fun _ => Scenario.world) sqs_client =
    (Raised Cases.KeyboardInterrupt,
     [ReceiveMessage (Some "https://sqs/main") 1 10 20 (Returned None);
      Log INFO NoMessagesReceived;
      ReceiveMessage (Some "https://sqs/main") 1 10 20 (Raised Cases.KeyboardInterrupt)]).
Proof.
  intros interrupted sqs_client.
  apply (interrupted_poll_ends_loop 5 1 (fun _ => Scenario.world) sqs_client
           Cases.KeyboardInterrupt).
  - lia.
  - intros i Hi. assert (i = 0%nat) as -> by lia. reflexivity.
  - reflexivity.
  - reflexivity.
Defined.

(* ================================================================== *)
(** ** What the entry point does *)
(* ================================================================== *)

(** X18. If one of the four required environment variables is unset or
    empty, main logs the missing ones in the order of its list and exits
    with status 1 before it creates a directory or a client; a variable
    set to the empty string counts as missing. *)
Theorem missing_variable_stops_main
    (sys : Startup) (w : nat -> World) (turns : nat) (var : string) :
  In var required_env_vars ->
  not_set sys var = true ->
  main sys w turns =
    (Raised (SystemExit "1"),
     [MissingVariables (List.filter (not_set sys) required_env_vars)])
  /\ In var (List.filter (not_set sys) required_env_vars).
Proof.
  intros Hin Hvar.
  assert (In var (List.filter (not_set sys) required_env_vars)) as Hmissing
    by (apply filter_In; by split).
  split; [|exact Hmissing].
  unfold main. rewrite main_try_stopped; [done|].
  intros Hnone. rewrite Hnone in Hmissing. destruct Hmissing.
Qed.

Lemma missing_variable_stops_main_witness :
  let sys := Cases.startup (<["SQS_QUEUE_URL" := ""]> (delete "AWS_ACCESS_KEY_ID" Cases.environment))
               Scenario.sqs in
  not_set sys "SQS_QUEUE_URL" = true
  /\ main sys (fun _ => Scenario.world) 3 =
       (Raised (SystemExit "1"), [MissingVariables ["AWS_ACCESS_KEY_ID"; "SQS_QUEUE_URL"]]).
Proof.
  intros sys. split; [reflexivity|].
  apply (missing_variable_stops_main sys (fun _ => Scenario.world) 3 "SQS_QUEUE_URL").
  - cbn. tauto.
  - reflexivity.
Defined.

(** X19. Whatever the worker does inside main comes after both directories
    were created with exist_ok=True and the sqs client was built, in that
    order, with credentials that are set and not empty. *)
Theorem worker_starts_after_startup
    (sys : Startup) (w : nat -> World) (turns : nat) (ev : Event) :
  In (Worker ev) (main_trace (main sys w turns)) ->
  exists (key secret : string) (sqs_client : nat -> SqsClient) (rest : list MainEvent),
    environ sys !! "AWS_ACCESS_KEY_ID" = Some key /\ key <> ""
    /\ environ sys !! "AWS_SECRET_ACCESS_KEY" = Some secret /\ secret <> ""
    /\ main_trace (main sys w turns) =
         MakeDirs ORIGINALS_DIR true (Returned tt)
         :: MakeDirs RESIZED_DIR true (Returned tt)
         :: Boto3Client "sqs" (AWS_REGION_NAME sys) (Some key) (Some secret)
              (Returned sqs_client)
         :: rest
    /\ In (Worker ev) rest.
Proof.
  intros Hin.
  destruct (main_worker_events _ _ _ _ Hin) as (Hnone & sqs_client & rest & _ & Ht & _).
  destruct (set_variable sys "AWS_ACCESS_KEY_ID") as (key & Hkey & Hk);
    [apply (missing_vars_none _ Hnone); cbn; tauto|].
  destruct (set_variable sys "AWS_SECRET_ACCESS_KEY") as (secret & Hsecret & Hs);
    [apply (missing_vars_none _ Hnone); cbn; tauto|].
  exists key, secret, sqs_client, rest.
  do 4 (split; [assumption|]).
  unfold AWS_ACCESS_KEY_ID, AWS_SECRET_ACCESS_KEY, getenv in Ht.
  rewrite Hkey, Hsecret in Ht. split; [exact Ht|].
  rewrite Ht in Hin. in_trace; try discriminate. exact Hin.
Qed.

Lemma worker_starts_after_startup_witness :
  let sys := Cases.startup Cases.environment Scenario.sqs in
  let run := main sys (fun _ => Scenario.world) 1 in
  let poll := ReceiveMessage (Some "https://sqs/main") 1 10 20 (Returned None) in
  In (Worker poll) (main_trace run)
  /\ exists sqs_client rest,
       main_trace run =
         MakeDirs "originals" true (Returned tt)
         :: MakeDirs "resized" true (Returned tt)
         :: Boto3Client "sqs" "us-east-1" (Some "AKIAEXAMPLE") (Some "secret")
              (Returned sqs_client)
         :: rest.
Proof.
  intros sys run poll.
  assert (In (Worker poll) (main_trace run)) as Hin by (vm_compute; tauto).
  split; [exact Hin|].
  destruct (worker_starts_after_startup sys (fun _ => Scenario.world) 1 poll Hin)
    as (key & secret & sqs_client & rest & Hkey & _ & Hsecret & _ & Ht & _).
  vm_compute in Hkey. vm_compute in Hsecret. simplify_eq.
  exists sqs_client, rest. exact Ht.
Defined.

(** X20. Every queue call made under main carries a URL that is set and
    not empty in the environment: polls and deletes use SQS_QUEUE_URL,
    dead-letter sends use DEAD_LETTER_QUEUE_URL. *)
Theorem worker_uses_configured_queues
    (sys : Startup) (w : nat -> World) (turns : nat) (ev : Event) (q : option string) :
  In (Worker ev) (main_trace (main sys w turns)) ->
  queue_url ev = Some q ->
  exists u : string,
    q = Some u /\ u <> ""
    /\ environ sys !! (match ev with
                       | SendMessage _ _ _ => "DEAD_LETTER_QUEUE_URL"
                       | _ => "SQS_QUEUE_URL"
                       end) = Some u.
Proof.
  intros Hin Hq.
  destruct (main_worker_events _ _ _ _ Hin) as (Hnone & sqs_client & rest & _ & _ & Hev).
  apply in_receive_messages_from in Hev as (k & _ & Hev).
  apply iteration_queues in Hev.
  destruct (set_variable sys "SQS_QUEUE_URL") as (main_q & Hmain & Hm);
    [apply (missing_vars_none _ Hnone); cbn; tauto|].
  destruct (set_variable sys "DEAD_LETTER_QUEUE_URL") as (dead_q & Hdead & Hd);
    [apply (missing_vars_none _ Hnone); cbn; tauto|].
  destruct ev; try discriminate Hq; cbn in Hq, Hev; simplify_eq.
  - destruct Hev as (-> & _). exists main_q. by rewrite <- Hmain.
  - exists dead_q. by rewrite <- Hdead.
  - exists main_q. by rewrite <- Hmain.
Qed.

Lemma worker_uses_configured_queues_witness :
  let sys := Cases.startup Cases.environment
               (Scenario.sqs_delivering (Scenario.message "11" Scenario.not_json)) in
  let run := main sys (fun _ => Scenario.world) 1 in
  let sent := SendMessage (Some "https://sqs/dead") Scenario.not_json (Returned tt) in
  In (Worker sent) (main_trace run)
  /\ environ sys !! "DEAD_LETTER_QUEUE_URL" = Some "https://sqs/dead".
Proof.
  intros sys run sent.
  assert (In (Worker sent) (main_trace run)) as Hin by (vm_compute; tauto).
  split; [exact Hin|].
  destruct (worker_uses_configured_queues sys (fun _ => Scenario.world) 1 sent
              (Some "https://sqs/dead") Hin eq_refl) as (u & Hu & _ & Henv).
  by simplify_eq.
Defined.

(** X21. main lets no KeyboardInterrupt out, and an Exception can leave
    main only from os.makedirs or boto3.client: the loop lets none
    through. *)
Theorem exceptions_leaving_main
    (sys : Startup) (w : nat -> World) (turns : nat) (e : Exn) :
  main_outcome (main sys w turns) = Raised e ->
  isinstance_KeyboardInterrupt e = false
  /\ (isinstance_Exception e = true ->
      (exists path, In (MakeDirs path true (Raised e)) (main_trace (main sys w turns)))
      \/ In (Boto3Client "sqs" (AWS_REGION_NAME sys)
               (AWS_ACCESS_KEY_ID sys) (AWS_SECRET_ACCESS_KEY sys) (Raised e))
            (main_trace (main sys w turns))).
Proof.
  unfold main, main_outcome, main_trace.
  destruct (List.filter (not_set sys) required_env_vars) as [|v vs] eqn:Hmissing.
  2: { rewrite main_try_stopped by (rewrite Hmissing; discriminate). cbn.
       intros H. by simplify_eq. }
  rewrite (main_try_started _ _ _ Hmissing). cbn zeta.
  destruct (os_makedirs sys ORIGINALS_DIR true) as [[]|e1].
  2: { destruct (isinstance_KeyboardInterrupt e1) eqn:K; cbn; intros H; simplify_eq.
       split; [done|]. intros _. left. exists ORIGINALS_DIR. by left. }
  destruct (os_makedirs sys RESIZED_DIR true) as [[]|e2].
  2: { destruct (isinstance_KeyboardInterrupt e2) eqn:K; cbn; intros H; simplify_eq.
       split; [done|]. intros _. left. exists RESIZED_DIR. right. by left. }
  destruct (boto3_client sys _ _ _ _) as [sqs_client|e3].
  2: { destruct (isinstance_KeyboardInterrupt e3) eqn:K; cbn; intros H; simplify_eq.
       split; [done|]. intros _. right. right. right. by left. }
  pose proof (receive_messages_from_survives 0 turns (fun i => with_globals sys (w i))
                sqs_client) as Hs.
  fold (receive_messages turns (fun i => with_globals sys (w i)) sqs_client) in Hs.
  destruct Hs as [[[] Hs] | (e' & Hs & He')]; rewrite Hs; [done|].
  destruct (isinstance_KeyboardInterrupt e') eqn:K; cbn; intros H; simplify_eq.
  split; [done|]. congruence.
Qed.

Lemma exceptions_leaving_main_witness :
  let sys := {| environ := Cases.environment;
                os_makedirs := fun _ _ => Raised Cases.PermissionError;
                boto3_client := fun _ _ _ _ => Returned (fun _ => Scenario.sqs) |} in
  main sys (fun _ => Scenario.world) 2 =
    (Raised Cases.PermissionError, [MakeDirs "originals" true (Raised Cases.PermissionError)])
  /\ isinstance_KeyboardInterrupt Cases.PermissionError = false.
Proof.
  intros sys. split; [vm_compute; reflexivity|].
  apply (exceptions_leaving_main sys (fun _ => Scenario.world) 2 Cases.PermissionError).
  vm_compute. reflexivity.
Defined.

(* ================================================================== *)
(** ** Files and receive counts *)
(* ================================================================== *)

(** X22. One run writes at most two files, and every file it writes is
    os.path.join(ORIGINALS_DIR, <id><ext>) or os.path.join(RESIZED_DIR,
    <id><ext>) for the id and the extension of the message's own body,
    after a fetch that answered 200. *)
Theorem files_written_by_one_run
    (w : World) (sqs_client : SqsClient) (m : Message) (path : string) :
  In path (artifacts (trace (process_message w sqs_client m))) ->
  exists (d : list (string * Value)) (resp : Response) (ext : string),
    Json.loads (recursion_limit w) (Body m) = Returned (VDict d)
    /\ requests_get w (dict_get d "image_url") = Returned resp
    /\ status_code resp = 200
    /\ get_image_ext (dict_get d "image_url") = Returned ext
    /\ (path = OsPath.join ORIGINALS_DIR (str w (dict_get d "id") +:+ ext)
        \/ path = OsPath.join RESIZED_DIR (str w (dict_get d "id") +:+ ext))
    /\ (length (artifacts (trace (process_message w sqs_client m))) <= 2)%nat.
Proof.
  intros Hin.
  by_paths w sqs_client m; unfold artifacts in *; rewrite omap_app in *.
  all: apply in_app_or in Hin as [Hin|Hin];
    [|exfalso; clear -Hin; handlers; in_trace].
  all: try (cbn in Hin; in_trace; fail).
  all: eexists _, _, _; do 4 (split; [eassumption|]).
  all: rewrite length_app.
  all: match goal with
       | |- context [handled ?r] =>
           replace (omap _ (handled r)) with (@nil string)
             by (clear; handlers; done)
       end.
  all: handlers; repeat (break_match; simplify_eq; cbn in * );
    in_trace; simplify_eq; (split; [tauto | cbn; lia]).
Qed.

Lemma files_written_by_one_run_witness :
  let run := process_message Scenario.world Scenario.sqs
               (Scenario.message "1" Scenario.absolute_id) in
  In "/tmp/x.png" (artifacts (trace run))
  /\ (length (artifacts (trace run)) <= 2)%nat.
Proof.
  intros run.
  assert (In "/tmp/x.png" (artifacts (trace run))) as Hin by (vm_compute; tauto).
  split; [exact Hin|].
  destruct (files_written_by_one_run Scenario.world Scenario.sqs
              (Scenario.message "1" Scenario.absolute_id) _ Hin)
    as (d & resp & ext & _ & _ & _ & _ & _ & Hlen).
  exact Hlen.
Defined.

(** X23. A receive count written as a decimal numeral (of at most 4300
    digits) is read back by int() as the number it stands for, so the
    message is sent to the dead-letter queue exactly when that number is
    over 10. *)
Theorem numeral_receive_count
    (w : World) (sqs_client : SqsClient) (m : Message) (n : nat) :
  (String.length (numeral n) <= 4300)%nat ->
  Attributes m !! "ApproximateReceiveCount" = Some (numeral n) ->
  receive_count m = Returned (Z.of_nat n)
  /\ send_calls (trace (process_message w sqs_client m)) =
       if (10 <? n)%nat then [(DEAD_LETTER_QUEUE_URL w, Body m)] else [].
Proof.
  intros Hlen Hcount.
  assert (receive_count m = Returned (Z.of_nat n)) as Hn.
  { unfold receive_count, subscript. rewrite Hcount. by apply IntFacts.int_numeral. }
  split; [exact Hn|].
  by_paths w sqs_client m; same_answers.
  all: try (replace (10 <? n)%nat with true by (symmetry; apply Nat.ltb_lt; lia)).
  all: try (replace (10 <? n)%nat with false by (symmetry; apply Nat.ltb_ge; lia)).
  all: handlers; done.
Qed.

Lemma numeral_receive_count_witness :
  let m := Scenario.message "11" Scenario.image_123 in
  numeral 11 = "11"
  /\ receive_count m = Returned 11
  /\ send_calls (trace (process_message Scenario.world Scenario.sqs m))
     = [(Some "https://sqs/dead", Scenario.image_123)].
Proof.
  intros m. split; [reflexivity|].
  apply (numeral_receive_count Scenario.world Scenario.sqs m 11).
  - vm_compute. lia.
  - reflexivity.
Defined.
